(** * Image-match server: a shallow embedding of [server.py]

    The development follows the layout of the source file:

    - [FixSignatureES.search_single_record] (candidate retrieval and
      re-ranking),
    - the helpers ([ids_with_path], [paths_at_location], [count_images],
      [delete_ids], [dist_to_percent], [get_image]),
    - the routes ([add_handler], [delete_handler], [search_handler],
      [compare_handler], [count_handler], [list_handler],
      [ping_handler]), the error handlers and the way a request reaches
      them.

    Python exceptions are an error result, the Elasticsearch index and the
    sequence of calls made to the outside world are an explicit state, and
    the parts that live in the [image_match] and [elasticsearch] packages
    (signature generation, distances, scoring of a word query) are the
    fields of a class, [Collaborators], that every definition is
    parameterised by.  The index is read and written one call at a time,
    each call seeing the effect of the ones before it. *)

From Stdlib Require Import ZArith String Ascii List Bool Lia.
From Stdlib Require Import Floats.SpecFloat.
From stdpp Require Import base option list gmap strings.

Open Scope string_scope.

(** ** Python data *)

(** Python floats and [numpy.float64] are IEEE 754 binary64 numbers. *)
Definition prec : Z := 53.
Definition emax : Z := 1024.
Abbreviation float := spec_float.

Definition float_of_Z (z : Z) : float := binary_normalize prec emax z 0 false.
Definition fsub (x y : float) : float := SFsub prec emax x y.
Definition fmul (x y : float) : float := SFmul prec emax x y.
Definition flt (x y : float) : bool := SFltb x y.
Definition feq (x y : float) : bool := SFeqb x y.

(** Parsed JSON (the [metadata] of a record): what [json.loads] returns,
    [None], a [bool], an [int], a [float], a [str], a [list] or a
    [dict]. *)
#[local] Unset Elimination Schemes.
Inductive json :=
| JNull
| JBool (b : bool)
| JNum (z : Z)
| JFloat (x : float)
| JStr (s : string)
| JList (l : list json)
| JObj (l : list (string * json)).
#[local] Set Elimination Schemes.

(** [bool(j)]: [None], [False], a zero, and an empty string, list or
    dict count as false. *)
Definition json_truthy (j : json) : bool :=
  match j with
  | JNull => false
  | JBool b => b
  | JNum z => negb (Z.eqb z 0)
  | JFloat x => negb (feq x (float_of_Z 0))
  | JStr s => negb (String.eqb s "")
  | JList l => match l with [] => false | _ :: _ => true end
  | JObj l => match l with [] => false | _ :: _ => true end
  end.

(** Values held by the record dict handed to [search_single_record]. *)
Inductive value :=
| VStr (s : string)
| VInt (z : Z)
| VList (l : list Z)
| VJson (j : json).

(** A Python dict keeps its keys in insertion order, and the order is what
    [for word in rec] walks: an association list, one binding per key. *)
Definition pydict := list (string * value).

Fixpoint dict_get (k : string) (d : pydict) : option value :=
  match d with
  | [] => None
  | (k', v) :: d' => if String.eqb k k' then Some v else dict_get k d'
  end.

Fixpoint dict_remove (k : string) (d : pydict) : pydict :=
  match d with
  | [] => []
  | (k', v) :: d' => if String.eqb k k' then d' else (k', v) :: dict_remove k d'
  end.

Definition dict_has (k : string) (d : pydict) : bool :=
  match dict_get k d with Some _ => true | None => false end.

(** An image argument: a location to fetch ([str]) or the bytes of an
    upload. *)
Inductive payload :=
| Url (s : string)
| Bytes (b : string).

(** ** Exceptions and results *)

Inductive exn :=
| KeyError (key : string)
| BadRequestKeyError (key : string)
| IndexError
| ValueError (what : string)
| JSONDecodeError
| NotFoundError (id : nat)
| LibraryError (what : string).

Inductive outcome (A : Type) :=
| Ret (a : A)
| Raise (e : exn).
Arguments Ret {A} a.
Arguments Raise {A} e.

(** ** The search engine as the server sees it

    The engine is taken to be reachable and to answer each call with the
    status that the operation itself determines: a search, a count and an
    indexing succeed, and a delete succeeds or finds no document (status
    404).  A connection that fails, a timeout, or any other status raises
    in the client; those failures are outside this model, and the
    statements below say nothing of a run in which one happens. *)

Definition doc_id := nat.

(** A stored document: what [add_image] writes. *)
Record doc := {
  d_id : doc_id;
  d_path : string;
  d_signature : list Z;
  d_metadata : option json;
  d_words : list (string * Z)
}.

(** The [_source] of a hit, after the engine has applied the source
    filter of the request.  A field the document lacks is [None]. *)
Record source := {
  s_signature : option (list Z);
  s_metadata : option json;
  s_url : option string;
  s_path : option string
}.

Record hit := {
  h_id : doc_id;
  h_score : float;
  h_source : source
}.

Inductive clause :=
| Term (field : string) (v : value).

Record bool_query := { should : list clause }.

Record search_body := {
  query_bool : bool_query;
  source_excludes : list string
}.

Record search_request := {
  sr_index : string;
  sr_body : search_body;
  sr_size : Z;
  sr_timeout : string
}.

(** Calls that leave the process, in the order they are made. *)
Inductive event :=
| EvSearchWords (req : search_request)
| EvDistance (sigs : list (list Z)) (sig : value)
| EvSearchPath (index path : string)
| EvSearchPage (index : string) (from size : Z)
| EvCount (index : string)
| EvDelete (index doc_type : string) (id : doc_id) (ignore : list Z)
| EvAddImage (path : string) (img : payload) (bytestream : bool)
             (metadata : option json)
| EvIndex (id : doc_id) (path : string)
| EvSearchImage (img : payload) (all_orientations bytestream : bool)
| EvGenerateSignature (img : payload) (bytestream : bool)
| EvFileRead (field : string).

Record world := {
  w_docs : list doc;
  w_log : list event
}.

(** ** The monad of a request: state and exceptions *)

Definition M (A : Type) : Type := world -> outcome A * world.

#[global] Instance M_ret : MRet M := fun A a w => (Ret a, w).
#[global] Instance M_bind : MBind M := fun A B f m w =>
  match m w with
  | (Ret a, w') => f a w'
  | (Raise e, w') => (Raise e, w')
  end.

Definition raise {A} (e : exn) : M A := fun w => (Raise e, w).
Definition emit (e : event) : M unit :=
  fun w => (Ret tt, {| w_docs := w_docs w; w_log := w_log w ++ [e] |}).
Definition get_docs : M (list doc) := fun w => (Ret (w_docs w), w).
Definition put_docs (ds : list doc) : M unit :=
  fun w => (Ret tt, {| w_docs := ds; w_log := w_log w |}).
Definition lift {A} (o : outcome A) : M A := fun w => (o, w).

(** [for x in xs: body x] *)
Fixpoint for_each {A} (body : A -> M unit) (xs : list A) : M unit :=
  match xs with
  | [] => mret tt
  | x :: xs' => body x ≫= fun _ => for_each body xs'
  end.

(** [[f x for x in xs]] where [f] may raise. *)
Fixpoint comprehension {A B} (f : A -> outcome B) (xs : list A)
  : outcome (list B) :=
  match xs with
  | [] => Ret []
  | x :: xs' =>
      match f x with
      | Raise e => Raise e
      | Ret y =>
          match comprehension f xs' with
          | Raise e => Raise e
          | Ret ys => Ret (y :: ys)
          end
      end
  end.

(** ** What a function hands back: a list, or a [filter] object *)

Record match_row := {
  m_id : doc_id;
  m_score : float;
  m_metadata : option json;
  m_path : option string;
  m_dist : float
}.

(** [filter(pred, xs)] is an iterator: it holds the rows it has not yet
    looked at and hands each surviving row out once. *)
Inductive pyseq :=
| PyList (rows : list match_row)
| PyFilter (keep : match_row -> bool) (pending : list match_row).

(** [next(it)] on a filter object. *)
Fixpoint filter_next (keep : match_row -> bool) (pending : list match_row)
  : option (match_row * list match_row) :=
  match pending with
  | [] => None
  | y :: rest => if keep y then Some (y, rest) else filter_next keep rest
  end.

(** [list(s)] (or [acc.extend(s)]): the rows delivered, and the object as
    it is left behind. *)
Definition py_drain (s : pyseq) : list match_row * pyseq :=
  match s with
  | PyList rows => (rows, PyList rows)
  | PyFilter keep pending => (List.filter keep pending, PyFilter keep [])
  end.

Definition py_list (s : pyseq) : list match_row := fst (py_drain s).

(** [len(s)]: defined on a list, a [TypeError] on a filter object. *)
Definition py_len (s : pyseq) : option nat :=
  match s with
  | PyList rows => Some (length rows)
  | PyFilter _ _ => None
  end.

(** [numpy.array(rows).size] for a list of integer lists: the number of
    scalars of a rectangular array; rows of different lengths make an
    array of row objects. *)
Definition np_size (rows : list (list Z)) : nat :=
  match rows with
  | [] => 0
  | r :: rest =>
      if forallb (fun r' => Nat.eqb (length r') (length r)) rest
      then length rows * length r
      else length rows
  end.

(** A [str] is held as the bytes of its UTF-8 encoding; [code_points]
    reads its characters back.  A byte that encodes no character reads as
    U+FFFD, the way the bytes of a form are decoded. *)
Definition replacement : N := 65533.

Definition well_formed (cp least : N) : bool :=
  (least <=? cp)%N && (cp <? 1114112)%N &&
  negb ((55296 <=? cp)%N && (cp <? 57344)%N).

(** [need] continuation bytes are awaited for the character whose bits
    read so far are [acc]; its encoding is the shortest one when it is at
    least [least]. *)
Fixpoint code_points_from (bs : list ascii) (need : nat) (acc least : N)
  : list N :=
  match bs with
  | [] => match need with 0 => [] | S _ => [replacement] end
  | b :: rest =>
      let n := N_of_ascii b in
      let start :=
        if (n <? 128)%N then n :: code_points_from rest 0 0%N 0%N
        else if (194 <=? n)%N && (n <? 224)%N
        then code_points_from rest 1 (n - 192)%N 128%N
        else if (224 <=? n)%N && (n <? 240)%N
        then code_points_from rest 2 (n - 224)%N 2048%N
        else if (240 <=? n)%N && (n <? 245)%N
        then code_points_from rest 3 (n - 240)%N 65536%N
        else replacement :: code_points_from rest 0 0%N 0%N in
      match need with
      | 0 => start
      | S need' =>
          if (128 <=? n)%N && (n <? 192)%N then
            let acc' := (acc * 64 + (n - 128))%N in
            match need' with
            | 0 =>
                (if well_formed acc' least then acc' else replacement)
                  :: code_points_from rest 0 0%N 0%N
            | S _ => code_points_from rest need' acc' least
            end
          else replacement :: start
      end
  end.

Definition code_points (s : string) : list N :=
  code_points_from (list_ascii_of_string s) 0 0%N 0%N.

(** The characters that have a decimal digit value (Unicode 14.0): each
    entry is the digit zero of a run of ten, [0] to [9]. *)
Definition decimal_zeros : list N :=
  [48; 1632; 1776; 1984; 2406; 2534; 2662; 2790; 2918; 3046; 3174; 3302;
   3430; 3558; 3664; 3792; 3872; 4160; 4240; 6112; 6160; 6470; 6608; 6784;
   6800; 6992; 7088; 7232; 7248; 42528; 43216; 43264; 43472; 43504; 43600;
   44016; 65296; 66720; 68912; 69734; 69872; 69942; 70096; 70384; 70736;
   70864; 71248; 71360; 71472; 71904; 72016; 72784; 73040; 73120; 92768;
   92864; 93008; 120782; 120792; 120802; 120812; 120822; 123200; 123632;
   125264; 130032]%N.

Definition decimal_value (cp : N) : option N :=
  match List.find (fun z => (z <=? cp)%N && (cp <? z + 10)%N) decimal_zeros
  with
  | Some z => Some (cp - z)%N
  | None => None
  end.

(** The white space beyond U+007F. *)
Definition unicode_spaces : list N :=
  [133; 160; 5760; 8192; 8193; 8194; 8195; 8196; 8197; 8198; 8199; 8200;
   8201; 8202; 8232; 8233; 8239; 8287; 12288]%N.

(** What [int] makes of a [str] before it reads the number: a character
    below U+007F stays, white space becomes a space, a decimal digit of any
    script becomes the ASCII digit of its value, and at the first character
    that is none of these the text ends in a question mark. *)
Fixpoint decimal_and_space_to_ascii (cps : list N) : list ascii :=
  match cps with
  | [] => []
  | cp :: rest =>
      if (cp <? 127)%N then ascii_of_N cp :: decimal_and_space_to_ascii rest
      else if existsb (N.eqb cp) unicode_spaces
      then " "%char :: decimal_and_space_to_ascii rest
      else
        match decimal_value cp with
        | Some d => ascii_of_N (48 + d) :: decimal_and_space_to_ascii rest
        | None => ["?"%char]
        end
  end.

(** The white space of the number itself: [\t\n\v\f\r] and the space. *)
Definition is_space (c : ascii) : bool :=
  let n := nat_of_ascii c in
  ((9 <=? n)%nat && (n <=? 13)%nat) || (n =? 32)%nat.

Definition digit_val (c : ascii) : option Z :=
  let n := nat_of_ascii c in
  if (48 <=? n)%nat && (n <=? 57)%nat then Some (Z.of_nat (n - 48)) else None.

Fixpoint drop_spaces (cs : list ascii) : list ascii :=
  match cs with
  | c :: cs' => if is_space c then drop_spaces cs' else cs
  | [] => []
  end.

Definition strip (cs : list ascii) : list ascii :=
  rev (drop_spaces (rev (drop_spaces cs))).

(** The interpreter refuses to convert more digits than this. *)
Definition max_str_digits : nat := 4300.

(** The scan of the digits: the value read so far, the number of digits,
    and what follows them.  An underscore must stand between two
    digits. *)
Fixpoint scan_digits (cs : list ascii) (acc : Z) (ndigits : nat)
         (after_digit : bool) : option (Z * nat * list ascii) :=
  match cs with
  | [] => if after_digit then Some (acc, ndigits, []) else None
  | c :: cs' =>
      match digit_val c with
      | Some d => scan_digits cs' (10 * acc + d)%Z (S ndigits) true
      | None =>
          if after_digit then
            if Ascii.eqb c "_"%char then scan_digits cs' acc ndigits false
            else Some (acc, ndigits, c :: cs')
          else None
      end
  end.

(** [int(s)] for a [str], as CPython 3.11 reads it in base 10: white
    space is dropped at both ends, a sign may come first, the digits may
    be grouped by single underscores, and a literal of more than 4300
    digits is refused before what follows the digits is looked at.  The
    text of a [ValueError] names the cause; it is not the interpreter's
    message. *)
Definition py_int (s : string) : outcome Z :=
  let invalid := ValueError "invalid literal for int() with base 10" in
  let '(negative, body) :=
    match strip (decimal_and_space_to_ascii (code_points s)) with
    | c :: cs' =>
        if Ascii.eqb c "-"%char then (true, cs')
        else if Ascii.eqb c "+"%char then (false, cs')
        else (false, c :: cs')
    | [] => (false, [])
    end in
  match scan_digits body 0 0 false with
  | None => Raise invalid
  | Some (z, ndigits, rest) =>
      if (max_str_digits <? ndigits)%nat
      then Raise (ValueError
                    "Exceeds the limit (4300 digits) for integer string conversion")
      else
        match rest with
        | [] => Ret (if negative then Z.opp z else z)
        | _ :: _ => Raise invalid
        end
  end.

(** ** Configuration and collaborators *)

(** The attributes of a [SignatureES] object that the method reads. *)
Record SignatureES := {
  index : string;
  doc_type : string;
  size : Z;
  timeout : string;
  distance_cutoff : float
}.

(** The module-level globals read from the environment. *)
Record config := {
  es_index : string;
  es_doc_type : string;
  all_orientations : string
}.

(** What the server calls and does not define. *)
Class Collaborators := {
  (** the engine's answer to a word query over the stored documents:
      matching, scoring and truncation to [size] are the engine's *)
  es_search_words : list doc -> search_request -> list hit;
  (** the number of hits the engine returns when a search names no size *)
  default_size : nat;
  (** the identifier the engine assigns to a document indexed without
      one *)
  fresh_id : list doc -> doc_id;
  (** [image_match.signature_database_base.normalized_distance] *)
  normalized_distance : list (list Z) -> value -> list float;
  (** the signature and the words that
      [image_match.signature_database_base.make_record] computes for an
      image, or the error of an image that cannot be read *)
  make_record : payload -> bool -> outcome (list Z * list (string * Z));
  (** [SignatureES.search_image] *)
  search_image : list doc -> payload -> bool -> bool ->
                 outcome (list match_row);
  (** [ImageSignature.generate_signature] *)
  generate_signature : payload -> bool -> outcome (list Z);
  (** [ImageSignature.normalized_distance] *)
  gis_normalized_distance : list Z -> list Z -> float;
  (** [json.loads] *)
  json_loads : string -> outcome json
}.

(** ** Requests and responses *)

(** [request.method], which the framework holds in upper case: the
    methods of HTTP, and [OTHER] for a name that is none of them. *)
Inductive http_method :=
| GET | HEAD | POST | PUT | DELETE | CONNECT | OPTIONS | TRACE | PATCH
| OTHER (name : string).

Record request := {
  rq_method : http_method;
  rq_form : gmap string string;
  rq_args : gmap string string;
  rq_files : gmap string string
}.

Inductive result_item :=
| RMatch (score : float) (filepath : option string) (metadata : option json)
| RScore (score : float)
| RCount (n : nat)
| RPath (p : string).

Record response := {
  status : string;
  error : list string;
  method : string;
  result : list result_item
}.

Definition ok (meth : string) (res : list result_item) : response :=
  {| status := "ok"; error := []; method := meth; result := res |}.

(** ** The engine's operations on the index *)

Section Engine.
Context `{Collaborators}.

(** [es.search(index, q='path:' + json.dumps(path))]: the documents
    whose path is [path], in index order, cut to the default page. *)
Definition es_search_path (idx : string) (path : string) : M (list doc) :=
  emit (EvSearchPath idx path);;
  docs ← get_docs;
  mret (take default_size
          (List.filter (fun d => String.eqb (d_path d) path) docs)).

(** [es.search(index, from_=offset, size=limit)] *)
Definition es_search_page (idx : string) (offset limit : Z)
  : M (list doc) :=
  emit (EvSearchPage idx offset limit);;
  docs ← get_docs;
  mret (take (Z.to_nat limit) (drop (Z.to_nat offset) docs)).

(** [es.count(index)['count']] *)
Definition es_count (idx : string) : M nat :=
  emit (EvCount idx);;
  docs ← get_docs;
  mret (length docs).

(** [es.delete(index, doc_type, id, ignore)]: a missing document is
    status 404, which raises unless the caller asked to ignore it. *)
Definition es_delete (idx dt : string) (id : doc_id) (ignore : list Z)
  : M unit :=
  emit (EvDelete idx dt id ignore);;
  docs ← get_docs;
  if existsb (fun d => Nat.eqb (d_id d) id) docs
  then put_docs (List.filter (fun d => negb (Nat.eqb (d_id d) id)) docs)
  else if existsb (Z.eqb 404) ignore then mret tt
  else raise (NotFoundError id).

(** [es.index(index, doc_type, body=rec)]: the document is stored under
    an identifier of the engine's choosing. *)
Definition es_index_doc (path : string) (sig : list Z)
           (metadata : option json) (words : list (string * Z))
  : M doc_id :=
  docs ← get_docs;
  let id := fresh_id docs in
  emit (EvIndex id path);;
  put_docs (docs ++ [{| d_id := id; d_path := path; d_signature := sig;
                        d_metadata := metadata; d_words := words |}]);;
  mret id.

(** The record that [make_record] builds carries the metadata only
    [if metadata:], so a value that counts as false is left out like
    no metadata at all. *)
Definition stored_metadata (metadata : option json) : option json :=
  match metadata with
  | Some j => if json_truthy j then Some j else None
  | None => None
  end.

(** [SignatureES.add_image(path, img, bytestream, metadata)]: the record
    made of the image is indexed. *)
Definition add_image (path : string) (img : payload) (bs : bool)
           (metadata : option json) : M unit :=
  emit (EvAddImage path img bs metadata);;
  '(sig, words) ← lift (make_record img bs);
  es_index_doc path sig (stored_metadata metadata) words;;
  mret tt.

End Engine.

(** ** FixSignatureES *)

Section FixSignatureES.
Context `{Collaborators}.

(** [d.pop(k)] *)
Definition pop (k : string) (d : pydict) : M (value * pydict) :=
  match dict_get k d with
  | Some v => mret (v, dict_remove k d)
  | None => raise (KeyError k)
  end.

(** [x['_source']['signature']] *)
Definition hit_signature (x : hit) : outcome (list Z) :=
  match s_signature (h_source x) with
  | Some s => Ret s
  | None => Raise (KeyError "signature")
  end.

(** Lines 42-46: the row of a hit, its [dist] still to be filled in. *)
Definition format_hit (x : hit) : float -> match_row := fun d =>
  {| m_id := h_id x;
     m_score := h_score x;
     m_metadata := s_metadata (h_source x);
     m_path := match s_url (h_source x) with
               | Some u => Some u
               | None => s_path (h_source x)
               end;
     m_dist := d |}.

(** Lines 48-49: [row['dist'] = dists[i]] for each row in turn. *)
Fixpoint attach_dists (rows : list (float -> match_row))
         (dists : list float) (i : nat) : outcome (list match_row) :=
  match rows with
  | [] => Ret []
  | row :: rest =>
      match dists !! i with
      | None => Raise IndexError
      | Some d =>
          match attach_dists rest dists (S i) with
          | Raise e => Raise e
          | Ret rs => Ret (row d :: rs)
          end
      end
  end.

(** The request of lines 23-33. *)
Definition words_request (self : SignatureES) (words : pydict)
  : search_request :=
  let should := List.map (fun '(word, v) => Term word v) words in
  {| sr_index := index self;
     sr_body := {| query_bool := {| should := should |};
                   source_excludes := ["simple_word_*"] |};
     sr_size := size self;
     sr_timeout := timeout self |}.

(** Lines 16-52.  The [filter] of line 50 is returned as it is; its
    predicate reads [self.distance_cutoff], which nothing in the server
    assigns after the object is built. *)
Definition search_single_record (self : SignatureES) (rec : pydict)
  : M pyseq :=
  '(path, rec) ← pop "path" rec;
  '(signature, rec) ← pop "signature" rec;
  let rec := if dict_has "metadata" rec then dict_remove "metadata" rec
             else rec in
  let req := words_request self rec in
  emit (EvSearchWords req);;
  docs ← get_docs;
  let res := es_search_words docs req in
  sigs ← lift (comprehension hit_signature res);
  if Nat.eqb (np_size sigs) 0 then mret (PyList [])
  else
    emit (EvDistance sigs signature);;
    let dists := normalized_distance sigs signature in
    let formatted_res := List.map format_hit res in
    formatted_res ← lift (attach_dists formatted_res dists 0);
    mret (PyFilter (fun y => flt (m_dist y) (distance_cutoff self))
                   formatted_res).

End FixSignatureES.

(** ** Helpers *)

Section Server.
Context `{Collaborators}.
Variable cfg : config.

Definition ids_with_path (path : string) : M (list doc_id) :=
  matches ← es_search_path (es_index cfg) path;
  mret (List.map d_id matches).

Definition paths_at_location (offset limit : Z) : M (list string) :=
  search ← es_search_page (es_index cfg) offset limit;
  mret (List.map d_path search).

Definition count_images : M nat := es_count (es_index cfg).

Definition delete_ids (ids : list doc_id) : M unit :=
  for_each (fun i => es_delete (es_index cfg) (es_doc_type cfg) i [404%Z])
           ids.

Definition dist_to_percent (dist : float) : float :=
  fmul (fsub (float_of_Z 1) dist) (float_of_Z 100).

Definition get_image (request : request) (url_field file_field : string)
  : M (payload * bool) :=
  match rq_form request !! url_field with
  | Some u => mret (Url u, false)
  | None =>
      match rq_files request !! file_field with
      | Some content => emit (EvFileRead file_field);;
                        mret (Bytes content, true)
      | None => raise (BadRequestKeyError file_field)
      end
  end.

(** ** Routes *)

(** [request.form[k]] *)
Definition form_item (request : request) (k : string) : M string :=
  match rq_form request !! k with
  | Some v => mret v
  | None => raise (BadRequestKeyError k)
  end.

Definition add_handler (request : request) : M response :=
  path ← form_item request "filepath";
  metadata ← match rq_form request !! "metadata" with
             | Some s => j ← lift (json_loads s); mret (Some j)
             | None => mret None
             end;
  '(img, bs) ← get_image request "url" "image";
  old_ids ← ids_with_path path;
  add_image path img bs metadata;;
  delete_ids old_ids;;
  mret (ok "add" []).

Definition delete_handler (request : request) : M response :=
  path ← form_item request "filepath";
  ids ← ids_with_path path;
  delete_ids ids;;
  mret (ok "delete" []).

(** The flag of line 143. *)
Definition ao_flag (request : request) : bool :=
  String.eqb (default (all_orientations cfg)
                      (rq_form request !! "all_orientations"))
             "true".

Definition search_handler (request : request) : M response :=
  '(img, bs) ← get_image request "url" "image";
  let ao := ao_flag request in
  emit (EvSearchImage img ao bs);;
  docs ← get_docs;
  matches ← lift (search_image docs img ao bs);
  mret (ok "search"
          (List.map (fun m => RMatch (dist_to_percent (m_dist m))
                                     (m_path m) (m_metadata m))
                    matches)).

Definition compare_handler (request : request) : M response :=
  '(img1, bs1) ← get_image request "url1" "image1";
  '(img2, bs2) ← get_image request "url2" "image2";
  emit (EvGenerateSignature img1 bs1);;
  img1_sig ← lift (generate_signature img1 bs1);
  emit (EvGenerateSignature img2 bs2);;
  img2_sig ← lift (generate_signature img2 bs2);
  let score := dist_to_percent (gis_normalized_distance img1_sig img2_sig) in
  mret (ok "compare" [RScore score]).

Definition count_handler (request : request) : M response :=
  count ← count_images;
  mret (ok "count" [RCount count]).

(** [int(d.get(k, dflt))] *)
Definition int_param (d : gmap string string) (k : string) (dflt : Z)
  : M Z :=
  match d !! k with
  | Some s => lift (py_int s)
  | None => mret dflt
  end.

Definition list_handler (request : request) : M response :=
  '(offset, limit) ←
    match rq_method request with
    | GET =>
        offset ← int_param (rq_args request) "offset" 0;
        limit ← int_param (rq_args request) "limit" 20;
        mret (Z.max offset 0, Z.max limit 0)
    | _ =>
        offset ← int_param (rq_form request) "offset" 0;
        limit ← int_param (rq_form request) "limit" 20;
        mret (Z.max offset 0, Z.max limit 0)
    end;
  paths ← paths_at_location offset limit;
  mret (ok "list" (List.map RPath paths)).

End Server.

(** ** The last route, the error handlers and the application *)

(** Lines 203-210. *)
Definition ping_handler (request : request) : M response :=
  mret (ok "ping" []).

(** The body of an error response. *)
Definition failure (errors : list string) : response :=
  {| status := "fail"; error := errors; method := ""; result := [] |}.

(** Lines 215-249: each error handler gives a body and a status code;
    [server_error] shows the text of the exception it is given. *)
Definition bad_request : response * Z := (failure ["bad request"], 400%Z).
Definition page_not_found : response * Z := (failure ["not found"], 404%Z).
Definition method_not_allowed : response * Z :=
  (failure ["method not allowed"], 405%Z).
Definition server_error (text : string) : response * Z :=
  (failure [text], 500%Z).

Definition http_method_eqb (a b : http_method) : bool :=
  match a, b with
  | GET, GET | HEAD, HEAD | POST, POST | PUT, PUT | DELETE, DELETE
  | CONNECT, CONNECT | OPTIONS, OPTIONS | TRACE, TRACE | PATCH, PATCH => true
  | OTHER x, OTHER y => String.eqb x y
  | _, _ => false
  end.

(** What goes back to the client: the body, when one is sent, and the
    status code. *)
Definition reply : Type := option response * Z.

(** The answer to a HEAD request is sent without its body. *)
Definition send (meth : http_method) (a : response * Z) : reply :=
  match meth with
  | HEAD => (None, snd a)
  | _ => (Some (fst a), snd a)
  end.

Section Application.
Context `{Collaborators}.
Variable cfg : config.

(** [str(e)] as the handler for status 500 sees it. *)
Variable str_error : exn -> string.

(** The rules that the [@app.route] decorators register: a path, the
    methods it accepts, the view. *)
Definition url_map
  : list (string * (list http_method * (request -> M response))) :=
  [("/add", ([POST], add_handler cfg));
   ("/delete", ([DELETE], delete_handler cfg));
   ("/search", ([POST], search_handler cfg));
   ("/compare", ([POST], compare_handler));
   ("/count", ([GET; POST], count_handler cfg));
   ("/list", ([GET; POST], list_handler cfg));
   ("/ping", ([GET; POST], ping_handler))].

Fixpoint find_rule (url : string)
         (rules : list (string * (list http_method * (request -> M response))))
  : option (list http_method * (request -> M response)) :=
  match rules with
  | [] => None
  | (u, rule) :: rest => if String.eqb url u then Some rule
                         else find_rule url rest
  end.

(** The answer when the view of a rule has run. *)
Definition view_answer (view : request -> M response) (request : request)
           (w : world) : reply * world :=
  match view request w with
  | (Ret body, w') => (send (rq_method request) (body, 200%Z), w')
  | (Raise (BadRequestKeyError _), w') =>
      (send (rq_method request) bad_request, w')
  | (Raise e, w') => (send (rq_method request) (server_error (str_error e)), w')
  end.

(** The methods a rule answers to: those it names, and HEAD when it
    names GET. *)
Definition accepts (methods : list http_method) (meth : http_method)
  : bool :=
  existsb (http_method_eqb meth) methods ||
  (http_method_eqb meth HEAD && existsb (http_method_eqb GET) methods).

(** One request through the application.  The path is compared with the
    rules as it stands.  No rule for the path is status 404.  Flask itself
    answers an OPTIONS request to a path that has a rule, with status 200
    and no body, and runs no view.  A rule that does not accept the method
    is status 405.  Otherwise the view runs: a missing form or file key
    that it raises is status 400, any other exception is status 500, and a
    view that returns is status 200. *)
Definition dispatch (url : string) (request : request)
  : world -> reply * world := fun w =>
  let meth := rq_method request in
  match find_rule url url_map with
  | None => (send meth page_not_found, w)
  | Some (methods, view) =>
      if http_method_eqb meth OPTIONS then ((None, 200%Z), w)
      else if accepts methods meth then view_answer view request w
      else (send meth method_not_allowed, w)
  end.

End Application.

(** ** Vocabulary of the statements *)

(** The world after some more calls were made. *)
Definition logged (w : world) (es : list event) : world :=
  {| w_docs := w_docs w; w_log := w_log w ++ es |}.

(** The bindings of the record that lines 17-20 leave behind. *)
Definition word_slots (rec : pydict) : pydict :=
  let rest := dict_remove "signature" (dict_remove "path" rec) in
  if dict_has "metadata" rest then dict_remove "metadata" rest else rest.

(** A returned sequence is materialized when it is a list. *)
Definition materialized (s : pyseq) : Prop := exists rows, s = PyList rows.

Definition is_search_words (e : event) : bool :=
  match e with EvSearchWords _ => true | _ => false end.

(** The documents left after deleting the identifiers [ids] in turn. *)
Definition remove_ids (ids : list doc_id) (docs : list doc) : list doc :=
  fold_left (fun ds i => List.filter (fun d => negb (Nat.eqb (d_id d) i)) ds)
            ids docs.

Definition has_path (path : string) (d : doc) : bool :=
  String.eqb (d_path d) path.

Definition is_file_read (e : event) : bool :=
  match e with EvFileRead _ => true | _ => false end.

(** The index holds at most one record for each path. *)
Definition one_per_path (docs : list doc) : Prop :=
  forall path, length (List.filter (has_path path) docs) <= 1.

Section Vocabulary.
Context `{Collaborators}.
Variable cfg : config.

(** The call that [delete_ids] makes for one identifier. *)
Definition ev_delete (i : doc_id) : event :=
  EvDelete (es_index cfg) (es_doc_type cfg) i [404%Z].

(** Lines 111-114. *)
Definition metadata_of (request : request) : outcome (option json) :=
  match rq_form request !! "metadata" with
  | Some s => match json_loads s with
              | Ret j => Ret (Some j)
              | Raise e => Raise e
              end
  | None => Ret None
  end.

Definition new_doc (docs : list doc) (path : string) (sig : list Z)
           (metadata : option json) (words : list (string * Z)) : doc :=
  {| d_id := fresh_id docs; d_path := path; d_signature := sig;
     d_metadata := metadata; d_words := words |}.

(** The parameters of a [/list] request come from the query string of a
    GET and from the form otherwise. *)
Definition list_params (request : request) : gmap string string :=
  match rq_method request with
  | GET => rq_args request
  | _ => rq_form request
  end.

Definition int_of_param (d : gmap string string) (k : string) (dflt : Z)
  : outcome Z :=
  match d !! k with
  | Some s => py_int s
  | None => Ret dflt
  end.

(** The same request with other uploads. *)
Definition with_files (r : request) (files : gmap string string)
  : request :=
  {| rq_method := rq_method r; rq_form := rq_form r;
     rq_args := rq_args r; rq_files := files |}.

End Vocabulary.

(** The identifiers of the index are pairwise different. *)
Definition ids_unique (docs : list doc) : Prop :=
  NoDup (List.map d_id docs).

(** The records that are not stored under [path]. *)
Definition other_path (path : string) (d : doc) : bool :=
  negb (has_path path d).

(** Calls that write to the index. *)
Definition is_write (e : event) : bool :=
  match e with EvIndex _ _ | EvDelete _ _ _ _ => true | _ => false end.

Definition is_generate_signature (e : event) : bool :=
  match e with EvGenerateSignature _ _ => true | _ => false end.

(** Calls to the search engine. *)
Definition is_index_call (e : event) : bool :=
  match e with
  | EvSearchWords _ | EvSearchPath _ _ | EvSearchPage _ _ _ | EvCount _
  | EvDelete _ _ _ _ | EvIndex _ _ | EvAddImage _ _ _ _
  | EvSearchImage _ _ _ => true
  | _ => false
  end.

(** A body made by a view that returned, or by an error handler. *)
Definition well_formed_answer (a : response * Z) : Prop :=
  (snd a = 200%Z /\ status (fst a) = "ok" /\ error (fst a) = []) \/
  (exists text, fst a = failure [text] /\
                (snd a = 400 \/ snd a = 404 \/ snd a = 405 \/ snd a = 500)%Z).

(** The same request with another form, and with another query string. *)
Definition with_form (r : request) (form : gmap string string) : request :=
  {| rq_method := rq_method r; rq_form := form;
     rq_args := rq_args r; rq_files := rq_files r |}.

Definition with_args (r : request) (args : gmap string string) : request :=
  {| rq_method := rq_method r; rq_form := rq_form r;
     rq_args := args; rq_files := rq_files r |}.

(** ** A small instance to run the definitions on *)

Module Demo.

(** A toy distance, enough to place candidates around a cutoff: the
    first number of the stored signature, in hundredths. *)
Definition hundredths (z : Z) : float :=
  SFdiv prec emax (float_of_Z z) (float_of_Z 100).

Definition word_matches (d : doc) (c : clause) : bool :=
  match c with
  | Term w (VInt z) =>
      existsb (fun '(w', z') => String.eqb w w' && Z.eqb z z') (d_words d)
  | Term _ _ => false
  end.

Definition hit_of_doc (d : doc) : hit :=
  {| h_id := d_id d;
     h_score := float_of_Z 1;
     h_source := {| s_signature := Some (d_signature d);
                    s_metadata := d_metadata d;
                    s_url := None;
                    s_path := Some (d_path d) |} |}.

#[export] Instance collaborators : Collaborators := {|
  es_search_words := fun docs req =>
    take (Z.to_nat (sr_size req))
      (List.map hit_of_doc
         (List.filter
            (fun d => existsb (word_matches d)
                        (should (query_bool (sr_body req))))
            docs));
  default_size := 10;
  fresh_id := fun docs => S (list_max (List.map d_id docs));
  normalized_distance := fun sigs _ =>
    List.map (fun s => hundredths (hd 0%Z s)) sigs;
  make_record := fun img _ =>
    match img with
    | Url s | Bytes s =>
        if String.eqb s "" then Raise (LibraryError "cannot read image")
        else Ret ([Z.of_nat (String.length s)],
                  [("simple_word_0", Z.of_nat (String.length s))])
    end;
  search_image := fun docs _ _ _ =>
    Ret (List.map (fun d => format_hit (hit_of_doc d)
                              (hundredths (hd 0%Z (d_signature d))))
                  docs);
  generate_signature := fun img _ =>
    match img with
    | Url s | Bytes s => Ret [Z.of_nat (String.length s)]
    end;
  gis_normalized_distance := fun a b =>
    if Z.eqb (hd 0%Z a) (hd 0%Z b) then float_of_Z 0 else hundredths 50;
  json_loads := fun s => Ret (JStr s)
|}.

Definition ses : SignatureES :=
  {| index := "images"; doc_type := "image"; size := 100;
     timeout := "10s"; distance_cutoff := hundredths 45 |}.

Definition cfg : config :=
  {| es_index := "images"; es_doc_type := "image";
     all_orientations := "true" |}.

Definition mk_doc (id : doc_id) (path : string) (first : Z) : doc :=
  {| d_id := id; d_path := path; d_signature := [first; 0%Z];
     d_metadata := None; d_words := [("simple_word_0", 7%Z)] |}.

(** Three stored images, at distance 0.44, 0.45 and 0.46 from the
    query of [rec]. *)
Definition docs : list doc :=
  [mk_doc 1 "a.jpg" 44; mk_doc 2 "b.jpg" 45; mk_doc 3 "c.jpg" 46].

Definition w0 : world := {| w_docs := docs; w_log := [] |}.
Definition empty : world := {| w_docs := []; w_log := [] |}.

Definition rec : pydict :=
  [("path", VStr "q.jpg"); ("signature", VList [1%Z; 2%Z]);
   ("metadata", VJson JNull); ("simple_word_0", VInt 7);
   ("simple_word_1", VInt 9)].

Definition post (form : list (string * string))
           (files : list (string * string)) : request :=
  {| rq_method := POST; rq_form := list_to_map form; rq_args := ∅;
     rq_files := list_to_map files |}.

Definition get (args : list (string * string)) : request :=
  {| rq_method := GET; rq_form := ∅; rq_args := list_to_map args;
     rq_files := ∅ |}.

(** What [search_single_record ses rec] returns on [w0], and the world
    it leaves. *)
Definition demo_result : pyseq :=
  PyFilter (fun y => flt (m_dist y) (distance_cutoff ses))
    [format_hit (hit_of_doc (mk_doc 1 "a.jpg" 44)) (hundredths 44);
     format_hit (hit_of_doc (mk_doc 2 "b.jpg" 45)) (hundredths 45);
     format_hit (hit_of_doc (mk_doc 3 "c.jpg" 46)) (hundredths 46)].

Definition demo_world : world :=
  logged w0 [EvSearchWords (words_request ses (word_slots rec));
             EvDistance [[44; 0]; [45; 0]; [46; 0]]%Z (VList [1; 2]%Z)].

(** Re-adding "a.jpg": record 1 goes, record 4 comes. *)
Definition readd : request :=
  post [("filepath", "a.jpg"); ("url", "http://x")] [("image", "bytes")].

Definition delete_missing : request :=
  post [("filepath", "missing.jpg")] [].

Definition search_by_url : request :=
  post [("url", "http://x"); ("all_orientations", "True")]
       [("image", "bytes")].

Definition list_negative : request :=
  get [("offset", "-5"); ("limit", "-1")].
Definition list_zero : request := get [("offset", "0"); ("limit", "0")].

End Demo.

(** Further inputs for the demo index. *)
Module Fixtures.
Import Demo.

(** A record that lost its path. *)
Definition rec_without_path : pydict :=
  [("signature", VList [1%Z; 2%Z]); ("simple_word_0", VInt 7)].

Definition delete_a : request := post [("filepath", "a.jpg")] [].

(** An add whose image cannot be read. *)
Definition add_unreadable : request :=
  post [("filepath", "a.jpg"); ("url", "")] [].

(** An add with nothing to identify the image by. *)
Definition add_without_image : request := post [("filepath", "a.jpg")] [].

Definition list_second : request := get [("offset", "1"); ("limit", "1")].

(** A comparison that names its first image only. *)
Definition compare_one : request := post [("url1", "http://x")] [].

(** A comparison of two images that differ. *)
Definition compare_two : request :=
  post [("url1", "http://x"); ("url2", "http://yy")] [].

(** An index that something other than these handlers has written:
    thirteen records under "a.jpg". *)
Definition crowded : world :=
  {| w_docs := List.map (fun i => mk_doc i "a.jpg" 44) (seq 1 13);
     w_log := [] |}.

(** A request that carries nothing but its method. *)
Definition bare (meth : http_method) : request :=
  {| rq_method := meth; rq_form := ∅; rq_args := ∅; rq_files := ∅ |}.

(** An add whose metadata is the empty string. *)
Definition add_with_empty_metadata : request :=
  post [("filepath", "d.jpg"); ("url", "http://x"); ("metadata", "")] [].

Definition str_error (e : exn) : string :=
  match e with
  | KeyError k | BadRequestKeyError k => k
  | IndexError => "list index out of range"
  | ValueError what | LibraryError what => what
  | JSONDecodeError => "Expecting value"
  | NotFoundError _ => "NotFoundError"
  end.

End Fixtures.

(** * Properties *)

(** ** Running the monad *)

Ltac run :=
  unfold mbind, M_bind, mret, M_ret, emit, get_docs, put_docs, lift, raise,
    logged in *; simpl in *.

Lemma bind_ret {A B} (m : M A) (f : A -> M B) w a w' :
  m w = (Ret a, w') -> (m ≫= f) w = f a w'.
Proof. intros E; run; by rewrite E. Qed.

Lemma bind_raise {A B} (m : M A) (f : A -> M B) w e w' :
  m w = (Raise e, w') -> (m ≫= f) w = (Raise e, w').
Proof. intros E; run; by rewrite E. Qed.

(** Run the first command of a sequence, given what it does. *)
Ltac mstep L := erewrite bind_ret by apply L; cbv beta iota.
Ltac mstep_refl := erewrite bind_ret by reflexivity; cbv beta iota.

(** ** Floats *)

Lemma flt_not_feq x y : flt x y = true -> feq x y = false.
Proof.
  unfold flt, feq, SFltb, SFeqb.
  destruct (SFcompare x y) as [[]|]; congruence.
Qed.

Lemma feq_not_flt x y : feq x y = true -> flt x y = false.
Proof.
  unfold flt, feq, SFltb, SFeqb.
  destruct (SFcompare x y) as [[]|]; congruence.
Qed.

(** ** Lists and iterators *)

Lemma filter_next_spec keep pending y rest :
  filter_next keep pending = Some (y, rest) ->
  keep y = true /\ List.filter keep pending = y :: List.filter keep rest.
Proof.
  induction pending as [|x xs IH]; simpl; [discriminate|].
  destruct (keep x) eqn:K.
  - intros [= -> ->]. by rewrite K.
  - apply IH.
Qed.

Lemma filter_next_none keep pending :
  filter_next keep pending = None -> List.filter keep pending = [].
Proof.
  induction pending as [|x xs IH]; simpl; [done|].
  destruct (keep x); [discriminate | apply IH].
Qed.

Lemma dict_remove_absent k d : dict_has k d = false -> dict_remove k d = d.
Proof.
  unfold dict_has. induction d as [|[k' v] d IH]; simpl; [done|].
  destruct (String.eqb k k'); [discriminate|]. intros E. by rewrite IH.
Qed.

Lemma word_slots_eq rec :
  word_slots rec
  = dict_remove "metadata" (dict_remove "signature" (dict_remove "path" rec)).
Proof.
  unfold word_slots. cbv zeta.
  destruct (dict_has "metadata" _) eqn:E; [done|].
  symmetry. by apply dict_remove_absent.
Qed.

Lemma comprehension_length {A B} (f : A -> outcome B) xs ys :
  comprehension f xs = Ret ys -> length ys = length xs.
Proof.
  revert ys. induction xs as [|x xs IH]; simpl; intros ys.
  - by intros [= <-].
  - destruct (f x); [|discriminate].
    destruct (comprehension f xs); [|discriminate].
    intros [= <-]. simpl. f_equal. by apply IH.
Qed.

Section ReRanking.
Context `{Collaborators}.

(** Row [k] of the re-ranked candidates is hit [k] with distance
    [dists[i + k]]. *)
Lemma attach_dists_lookup rows dists i cands :
  attach_dists rows dists i = Ret cands ->
  length cands = length rows /\
  forall k row, rows !! k = Some row ->
    exists d, dists !! (i + k) = Some d /\ cands !! k = Some (row d).
Proof.
  revert i cands. induction rows as [|r rows IH]; simpl; intros i cands.
  - intros [= <-]. split; [done|]. intros k row E. by destruct k.
  - destruct (dists !! i) as [d|] eqn:D; [|discriminate].
    destruct (attach_dists rows dists (S i)) as [rs|] eqn:R; [|discriminate].
    intros [= <-]. destruct (IH _ _ R) as [L K]. split; [simpl; lia|].
    intros [|k] row E; simpl in *.
    + injection E as <-. exists d. by rewrite Nat.add_0_r.
    + destruct (K k row E) as (d' & D' & C). exists d'.
      split; [|done]. by replace (i + S k) with (S i + k) by lia.
Qed.

Lemma attach_dists_total rows dists i :
  i + length rows <= length dists ->
  exists cands, attach_dists rows dists i = Ret cands.
Proof.
  revert i. induction rows as [|r rows IH]; simpl; intros i L; [eauto|].
  destruct (lookup_lt_is_Some_2 dists i) as [d D]; [lia|]. rewrite D.
  destruct (IH (S i)) as [cands C]; [lia|]. rewrite C. eauto.
Qed.

Lemma comprehension_total {A B} (f : A -> outcome B) xs :
  (forall x, In x xs -> exists y, f x = Ret y) ->
  exists ys, comprehension f xs = Ret ys.
Proof.
  induction xs as [|x xs IH]; simpl; intros All; [eauto|].
  destruct (All x) as [y Y]; [by left|]. rewrite Y.
  destruct IH as [ys Ys]; [intros; apply All; by right|].
  rewrite Ys. eauto.
Qed.

(** Every path through [search_single_record]. *)
Lemma search_single_record_run self rec w :
  search_single_record self rec w =
  match dict_get "path" rec with
  | None => (Raise (KeyError "path"), w)
  | Some _ =>
      match dict_get "signature" (dict_remove "path" rec) with
      | None => (Raise (KeyError "signature"), w)
      | Some signature =>
          let req := words_request self (word_slots rec) in
          let res := es_search_words (w_docs w) req in
          match comprehension hit_signature res with
          | Raise e => (Raise e, logged w [EvSearchWords req])
          | Ret sigs =>
              if Nat.eqb (np_size sigs) 0
              then (Ret (PyList []), logged w [EvSearchWords req])
              else
                let w' := logged w [EvSearchWords req;
                                    EvDistance sigs signature] in
                match attach_dists (List.map format_hit res)
                        (normalized_distance sigs signature) 0 with
                | Raise e => (Raise e, w')
                | Ret cands =>
                    (Ret (PyFilter
                            (fun y => flt (m_dist y) (distance_cutoff self))
                            cands), w')
                end
          end
      end
  end.
Proof.
  unfold search_single_record, pop, word_slots.
  destruct (dict_get "path" rec); [|done]. run.
  destruct (dict_get "signature" _); [|done]. simpl.
  destruct (comprehension hit_signature _) as [sigs|]; [|done].
  destruct (Nat.eqb (np_size sigs) 0); [done|]. simpl.
  destruct (attach_dists _ _ _); simpl; by rewrite <- app_assoc.
Qed.

(** The method returns whenever the record has a path and a signature,
    every hit carries a signature, and the distance function gives one
    distance for each candidate. *)
Lemma search_single_record_returns self rec w p signature :
  dict_get "path" rec = Some p ->
  dict_get "signature" (dict_remove "path" rec) = Some signature ->
  (forall x,
     In x (es_search_words (w_docs w) (words_request self (word_slots rec)))
     -> exists s, s_signature (h_source x) = Some s) ->
  (forall sigs,
     length (normalized_distance sigs signature) = length sigs) ->
  exists r w', search_single_record self rec w = (Ret r, w').
Proof.
  intros P S Sig Len. rewrite search_single_record_run, P, S. cbv zeta.
  destruct (comprehension_total hit_signature
              (es_search_words (w_docs w)
                 (words_request self (word_slots rec)))) as [sigs C].
  { intros x Hin. destruct (Sig x Hin) as [s E]. exists s.
    unfold hit_signature. by rewrite E. }
  rewrite C. destruct (Nat.eqb (np_size sigs) 0); [eauto|].
  destruct (attach_dists_total
              (List.map format_hit
                 (es_search_words (w_docs w)
                    (words_request self (word_slots rec))))
              (normalized_distance sigs signature) 0) as [cands A].
  { rewrite Len, length_map. apply comprehension_length in C. simpl. lia. }
  rewrite A. eauto.
Qed.

Lemma words_request_should self words :
  should (query_bool (sr_body (words_request self words)))
  = List.map (fun '(word, v) => Term word v) words.
Proof. reflexivity. Qed.

(** The scored candidates are the hits paired with the distances, in
    the order of the hits. *)
Lemma attach_dists_zip res dists i cands :
  attach_dists (List.map format_hit res) dists i = Ret cands ->
  cands = zip_with format_hit res (drop i dists) /\
  length cands = length res.
Proof.
  revert i cands. induction res as [|x res IH]; simpl; intros i cands.
  - by intros [= <-].
  - destruct (dists !! i) as [d|] eqn:D; [|discriminate].
    destruct (attach_dists _ dists (S i)) as [rs|] eqn:R; [|discriminate].
    intros [= <-]. destruct (IH _ _ R) as [E L].
    rewrite (drop_S _ _ _ D). simpl. split; [by rewrite E|by rewrite L].
Qed.

Lemma attach_dists_enough res dists :
  length res <= length dists ->
  attach_dists (List.map format_hit res) dists 0
  = Ret (zip_with format_hit res dists).
Proof.
  intros L.
  destruct (attach_dists_total (List.map format_hit res) dists 0)
    as [cands A]; [by rewrite length_map|].
  rewrite A. by apply attach_dists_zip in A as [-> _].
Qed.

(** The path on which distances are computed. *)
Lemma search_single_record_scored self rec w p signature sigs :
  dict_get "path" rec = Some p ->
  dict_get "signature" (dict_remove "path" rec) = Some signature ->
  let req := words_request self (word_slots rec) in
  let res := es_search_words (w_docs w) req in
  let dists := normalized_distance sigs signature in
  comprehension hit_signature res = Ret sigs ->
  np_size sigs <> 0 ->
  length res <= length dists ->
  search_single_record self rec w
  = (Ret (PyFilter (fun y => flt (m_dist y) (distance_cutoff self))
                   (zip_with format_hit res dists)),
     logged w [EvSearchWords req; EvDistance sigs signature]).
Proof.
  intros P S req res dists C NZ L.
  rewrite search_single_record_run, P, S. cbv zeta.
  fold req. fold res. rewrite C.
  destruct (Nat.eqb_spec (np_size sigs) 0) as [?|_]; [done|].
  fold dists. by rewrite attach_dists_enough.
Qed.

(** Every run that returns took the short cut or the scored path. *)
Lemma search_single_record_returned self rec w r w' :
  search_single_record self rec w = (Ret r, w') ->
  let req := words_request self (word_slots rec) in
  let res := es_search_words (w_docs w) req in
  exists p signature sigs,
    dict_get "path" rec = Some p /\
    dict_get "signature" (dict_remove "path" rec) = Some signature /\
    comprehension hit_signature res = Ret sigs /\
    ((np_size sigs = 0 /\ r = PyList [] /\
      w' = logged w [EvSearchWords req]) \/
     (np_size sigs <> 0 /\
      length res <= length (normalized_distance sigs signature) /\
      r = PyFilter (fun y => flt (m_dist y) (distance_cutoff self))
            (zip_with format_hit res (normalized_distance sigs signature)) /\
      w' = logged w [EvSearchWords req; EvDistance sigs signature])).
Proof.
  rewrite search_single_record_run. intros E req res.
  destruct (dict_get "path" rec) as [p|]; [|discriminate].
  destruct (dict_get "signature" _) as [signature|]; [|discriminate].
  cbv zeta in E. fold req in E. fold res in E.
  destruct (comprehension hit_signature res) as [sigs|]; [|discriminate].
  exists p, signature, sigs. do 3 (split; [done|]).
  destruct (Nat.eqb_spec (np_size sigs) 0) as [Z|NZ].
  { injection E as <- <-. by left. }
  destruct (attach_dists _ _ _) as [cands|] eqn:A; [|discriminate].
  injection E as <- <-. right. split; [done|].
  apply attach_dists_zip in A as [-> L]. rewrite drop_0 in *.
  split; [|done]. rewrite length_zip_with in L. lia.
Qed.

Lemma filter_keeps {A} (f : A -> bool) (l : list A) y :
  In y l -> (In y (List.filter f l) <-> f y = true).
Proof. intros Hin. rewrite filter_In. tauto. Qed.

(** C1: a candidate is kept if and only if its distance is strictly
    below the cutoff.  Whatever [search_single_record] hands back, every
    row of it has [dist < distance_cutoff], so none has
    [dist == distance_cutoff].  And when the record has its path and
    signature, the hits carry signatures of which one at least has an
    element, and there is a distance for each hit, the method returns, and
    what it hands back are exactly the candidates (hit [k] with the
    distance [dists[k]]) whose distance is below the cutoff, in the order
    of the hits: candidate [k] is among them if and only if
    [dists[k] < distance_cutoff], and it is not when
    [dists[k] == distance_cutoff]. *)
Theorem search_single_record_strict_cutoff self rec w :
  let cutoff := distance_cutoff self in
  (forall r w', search_single_record self rec w = (Ret r, w') ->
     forall y, In y (py_list r) ->
       flt (m_dist y) cutoff = true /\ feq (m_dist y) cutoff = false) /\
  (forall p signature sigs,
     dict_get "path" rec = Some p ->
     dict_get "signature" (dict_remove "path" rec) = Some signature ->
     let req := words_request self (word_slots rec) in
     let res := es_search_words (w_docs w) req in
     let dists := normalized_distance sigs signature in
     comprehension hit_signature res = Ret sigs ->
     np_size sigs <> 0 ->
     length res <= length dists ->
     exists r,
       search_single_record self rec w
       = (Ret r, logged w [EvSearchWords req; EvDistance sigs signature]) /\
       py_list r
       = List.filter (fun y => flt (m_dist y) cutoff)
           (zip_with format_hit res dists) /\
       (forall k x d, res !! k = Some x -> dists !! k = Some d ->
          (In (format_hit x d) (py_list r) <-> flt d cutoff = true) /\
          (feq d cutoff = true -> ~ In (format_hit x d) (py_list r)))).
Proof.
  intros cutoff. split.
  - intros r w' E y.
    destruct (search_single_record_returned self rec w r w' E)
      as (p & signature & sigs & _ & _ & _ & [(_ & -> & _)|(_ & _ & -> & _)]).
    + intros [].
    + unfold py_list. simpl. intros [_ K]%filter_In. split; [done|].
      by apply flt_not_feq.
  - intros p signature sigs P S req res dists C NZ L. eexists.
    split; [by apply (search_single_record_scored self rec w p)|].
    split; [done|]. intros k x d X D. unfold py_list. simpl.
    assert (Hin : In (format_hit x d) (zip_with format_hit res dists)).
    { apply list_elem_of_In, (list_elem_of_lookup_2 _ k).
      by rewrite lookup_zip_with, X, D. }
    pose proof (filter_keeps (fun y => flt (m_dist y) cutoff) _ _ Hin) as K.
    simpl in K. split; [exact K|].
    intros Q%feq_not_flt Hy. apply K in Hy. congruence.
Qed.

(** C2: when the word query comes back with no hit, the method returns
    the empty list (a result, not an exception), and the only call it has
    made is that one search: [normalized_distance] is never reached. *)
Theorem search_single_record_no_candidates self rec w p signature :
  dict_get "path" rec = Some p ->
  dict_get "signature" (dict_remove "path" rec) = Some signature ->
  es_search_words (w_docs w) (words_request self (word_slots rec)) = [] ->
  let w' := logged w [EvSearchWords (words_request self (word_slots rec))] in
  search_single_record self rec w = (Ret (PyList []), w') /\
  forall sigs sig,
    In (EvDistance sigs sig) (w_log w') -> In (EvDistance sigs sig) (w_log w).
Proof.
  intros P S E w'. split.
  - rewrite search_single_record_run, P, S. cbv zeta. by rewrite E.
  - intros sigs sig. unfold w', logged. simpl. rewrite in_app_iff.
    intros [?|[?|[]]]; [done|discriminate].
Qed.

Lemma dict_remove_In k d k' v :
  In (k', v) (dict_remove k d) -> In (k', v) d.
Proof.
  induction d as [|[k0 v0] d IH]; simpl; [done|].
  destruct (String.eqb k k0); [tauto|]. simpl. tauto.
Qed.

Lemma dict_remove_NoDup k d :
  NoDup (List.map fst d) -> NoDup (List.map fst (dict_remove k d)).
Proof.
  induction d as [|[k0 v0] d IH]; simpl; [done|].
  intros [N' N]%NoDup_cons.
  destruct (String.eqb k k0); [done|]. simpl.
  apply NoDup_cons. split; [|by apply IH].
  intros Hin. apply N'. apply list_elem_of_In in Hin.
  apply list_elem_of_In. apply in_map_iff in Hin as ([k1 v1] & <- & Hin).
  apply dict_remove_In in Hin. apply in_map_iff. by exists (k1, v1).
Qed.

Lemma dict_remove_spec k d k' v :
  NoDup (List.map fst d) ->
  In (k', v) (dict_remove k d) <-> In (k', v) d /\ k' <> k.
Proof.
  induction d as [|[k0 v0] d IH]; simpl; [tauto|].
  intros [N' N]%NoDup_cons.
  destruct (String.eqb_spec k k0) as [->|Ne].
  - split.
    + intros Hin. split; [by right|]. intros ->. apply N'.
      apply list_elem_of_In, in_map_iff. by exists (k0, v).
    + intros [[[= -> ->]|Hin] Ne]; [done|done].
  - simpl. rewrite (IH N). split.
    + intros [[= -> ->]|[Hin Ne']]; [split; [by left|congruence]|].
      split; [by right|done].
    + intros [[[= -> ->]|Hin] Ne']; [by left|by right].
Qed.

(** The word slots are the bindings of the record other than [path],
    [signature] and [metadata]. *)
Lemma word_slots_spec rec k v :
  NoDup (List.map fst rec) ->
  In (k, v) (word_slots rec) <->
  In (k, v) rec /\ k <> "path" /\ k <> "signature" /\ k <> "metadata".
Proof.
  intros N. rewrite word_slots_eq.
  rewrite !dict_remove_spec by auto using dict_remove_NoDup. tauto.
Qed.

End ReRanking.

Section CandidateRetrieval.
Context `{Collaborators}.

(** C4: a call of [search_single_record] on a record that has its path
    and signature makes exactly one search, and it makes it first.  The
    query of that search is a [bool] query whose [should] list holds one
    [term] clause per word slot of the record (every binding other than
    [path], [signature] and [metadata], in the order of the record), the
    [size] asked for is the configured one, and the fields
    [simple_word_*] are excluded from the documents returned.  The index
    is not written. *)
Theorem search_single_record_query self rec w o w' p signature :
  NoDup (List.map fst rec) ->
  dict_get "path" rec = Some p ->
  dict_get "signature" (dict_remove "path" rec) = Some signature ->
  search_single_record self rec w = (o, w') ->
  exists req rest,
    w_log w' = (w_log w ++ EvSearchWords req :: rest)%list /\
    List.filter is_search_words rest = [] /\
    w_docs w' = w_docs w /\
    sr_index req = index self /\
    should (query_bool (sr_body req))
    = List.map (fun '(word, v) => Term word v) (word_slots rec) /\
    length (should (query_bool (sr_body req))) = length (word_slots rec) /\
    (forall word v,
       In (Term word v) (should (query_bool (sr_body req))) <->
       In (word, v) rec /\
       word <> "path" /\ word <> "signature" /\ word <> "metadata") /\
    sr_size req = size self /\
    source_excludes (sr_body req) = ["simple_word_*"].
Proof.
  intros N P S. rewrite search_single_record_run, P, S. cbv zeta.
  set (req := words_request self (word_slots rec)). intros E.
  assert (L : exists rest,
                w_log w' = (w_log w ++ EvSearchWords req :: rest)%list /\
                List.filter is_search_words rest = [] /\
                w_docs w' = w_docs w).
  { destruct (comprehension hit_signature _) as [sigs|].
    - destruct (Nat.eqb (np_size sigs) 0).
      + injection E as <- <-. by exists [].
      + destruct (attach_dists _ _ _); injection E as <- <-;
          by exists [EvDistance sigs signature].
    - injection E as <- <-. by exists []. }
  destruct L as (rest & L1 & L2 & L3). exists req, rest.
  do 5 (split; [done|]). split; [|split; [|done]].
  - unfold req. rewrite words_request_should. by rewrite length_map.
  - intros word v. unfold req. rewrite words_request_should.
    rewrite <- (word_slots_spec rec word v N). rewrite in_map_iff. split.
    + intros ([k v'] & [= -> ->] & Hin). done.
    + intros Hin. by exists (word, v).
Qed.

(** C5, as the code has it: [search_single_record] returns a list only
    when it takes the short cut, and that list is empty; no distance has
    been computed then.  Whenever distances were computed it returns the
    [filter] object itself, over the scored candidates (hit [k] with the
    distance [dists[k]], of which there is at least one): nothing has been
    materialized, and the object has no length.  Draining it once
    delivers the candidates with [dist < distance_cutoff] in the order of
    the hits and leaves it exhausted, so that a second pass delivers
    nothing.  And the method does return that object whenever the record
    has its path and signature, the hits carry signatures of which one at
    least has an element, and there is a distance for each hit. *)
Theorem search_single_record_result_is_lazy self rec w :
  let req := words_request self (word_slots rec) in
  let res := es_search_words (w_docs w) req in
  let keep := fun y => flt (m_dist y) (distance_cutoff self) in
  (forall r w', search_single_record self rec w = (Ret r, w') ->
     exists signature sigs,
       dict_get "signature" (dict_remove "path" rec) = Some signature /\
       comprehension hit_signature res = Ret sigs /\
       let cands := zip_with format_hit res
                      (normalized_distance sigs signature) in
       (np_size sigs = 0 /\
        r = PyList [] /\ w' = logged w [EvSearchWords req]) \/
       (np_size sigs <> 0 /\
        w' = logged w [EvSearchWords req; EvDistance sigs signature] /\
        r = PyFilter keep cands /\
        length cands = length res /\ cands <> [] /\
        ~ materialized r /\
        py_len r = None /\
        fst (py_drain r) = List.filter keep cands /\
        py_list (snd (py_drain r)) = [])) /\
  (forall p signature sigs,
     dict_get "path" rec = Some p ->
     dict_get "signature" (dict_remove "path" rec) = Some signature ->
     let dists := normalized_distance sigs signature in
     comprehension hit_signature res = Ret sigs ->
     np_size sigs <> 0 ->
     length res <= length dists ->
     search_single_record self rec w
     = (Ret (PyFilter keep (zip_with format_hit res dists)),
        logged w [EvSearchWords req; EvDistance sigs signature]) /\
     forall k x d, res !! k = Some x -> dists !! k = Some d ->
       zip_with format_hit res dists !! k = Some (format_hit x d)).
Proof.
  intros req res keep. split.
  - intros r w' E.
    destruct (search_single_record_returned self rec w r w' E)
      as (p & signature & sigs & _ & S & C & K).
    exists signature, sigs. do 2 (split; [done|]). cbv zeta.
    destruct K as [(Z & -> & ->)|(NZ & L & -> & ->)]; [by left|right].
    fold req res in L |- *.
    assert (Len : length (zip_with format_hit res
                            (normalized_distance sigs signature))
                  = length res) by (rewrite length_zip_with; lia).
    do 4 (split; [done|]). split; [|split; [|done]].
    + intros N. rewrite N in Len. simpl in Len.
      apply comprehension_length in C. unfold res, req in Len.
      rewrite <- Len in C. destruct sigs; [done|discriminate].
    + intros [rows [=]].
  - intros p signature sigs P S dists C NZ L. split.
    + by apply (search_single_record_scored self rec w p).
    + intros k x d X D. by rewrite lookup_zip_with, X, D.
Qed.

End CandidateRetrieval.

(** *** The demo index: three candidates at 0.44, 0.45 and 0.46 *)

Module ReRankingExamples.
Import Demo.

Lemma demo_run :
  search_single_record ses rec w0 = (Ret demo_result, demo_world).
Proof. reflexivity. Qed.

(** With the cutoff at 0.45, only the candidate at 0.44 is returned: the
    one at exactly 0.45 is not. *)
Lemma search_single_record_strict_cutoff_witness :
  let res := es_search_words (w_docs w0)
               (words_request ses (word_slots rec)) in
  let dists := normalized_distance [[44; 0]; [45; 0]; [46; 0]]%Z
                 (VList [1; 2]%Z) in
  let cutoff := distance_cutoff ses in
  List.map h_id res = [1; 2; 3] /\
  List.map (fun d => (flt d cutoff, feq d cutoff)) dists
  = [(true, false); (false, true); (false, false)] /\
  exists r,
    search_single_record ses rec w0 = (Ret r, demo_world) /\
    List.map m_id (py_list r) = [1] /\
    py_list r
    = List.filter (fun y => flt (m_dist y) cutoff)
        (zip_with format_hit res dists).
Proof.
  cbv zeta. split; [vm_compute; reflexivity|].
  split; [vm_compute; reflexivity|].
  destruct (proj2 (search_single_record_strict_cutoff ses rec w0)
              (VStr "q.jpg") (VList [1; 2]%Z)
              [[44; 0]; [45; 0]; [46; 0]]%Z)
    as (r & E & L & _).
  - vm_compute; reflexivity.
  - vm_compute; reflexivity.
  - vm_compute; reflexivity.
  - vm_compute; lia.
  - vm_compute; lia.
  - exists r. split; [exact E|]. split; [|exact L].
    rewrite L. vm_compute. reflexivity.
Defined.

Lemma search_single_record_no_candidates_witness :
  search_single_record ses rec empty
  = (Ret (PyList []),
     logged empty [EvSearchWords (words_request ses (word_slots rec))]).
Proof.
  refine (proj1 (search_single_record_no_candidates ses rec empty
                   (VStr "q.jpg") (VList [1; 2]%Z) _ _ _));
    vm_compute; reflexivity.
Defined.

Lemma search_single_record_query_witness :
  exists req rest,
    w_log demo_world = (w_log w0 ++ EvSearchWords req :: rest)%list /\
    List.filter is_search_words rest = [] /\
    w_docs demo_world = w_docs w0 /\
    sr_index req = index ses /\
    should (query_bool (sr_body req))
    = List.map (fun '(word, v) => Term word v) (word_slots rec) /\
    length (should (query_bool (sr_body req))) = length (word_slots rec) /\
    (forall word v,
       In (Term word v) (should (query_bool (sr_body req))) <->
       In (word, v) rec /\
       word <> "path" /\ word <> "signature" /\ word <> "metadata") /\
    sr_size req = size ses /\
    source_excludes (sr_body req) = ["simple_word_*"].
Proof.
  refine (search_single_record_query ses rec w0 (Ret demo_result)
            demo_world (VStr "q.jpg") (VList [1; 2]%Z) _ _ _ demo_run).
  - vm_compute. repeat (apply NoDup_cons_2; [intros E; vm_compute in E|]).
    all: try apply NoDup_nil_2.
    all: repeat (apply elem_of_cons in E as [E|E]; [discriminate|]).
    all: by apply elem_of_nil in E.
  - vm_compute; reflexivity.
  - vm_compute; reflexivity.
Defined.

(** C5 fails on the code: with candidates to score, what comes back is
    a [filter] object.  It has no length, and it can be walked once: the
    first pass delivers one row, the second none. *)
Lemma search_single_record_not_materialized :
  exists r w',
    search_single_record ses rec w0 = (Ret r, w') /\
    ~ materialized r /\
    py_len r = None /\
    List.map m_id (fst (py_drain r)) = [1] /\
    fst (py_drain (snd (py_drain r))) = [].
Proof.
  exists demo_result, demo_world. split; [apply demo_run|].
  split; [intros [rows [=]]|]. by vm_compute.
Qed.

(** On the demo index the method hands back the [filter] object over
    the three scored candidates. *)
Lemma search_single_record_result_is_lazy_witness :
  let res := es_search_words (w_docs w0)
               (words_request ses (word_slots rec)) in
  let dists := normalized_distance [[44; 0]; [45; 0]; [46; 0]]%Z
                 (VList [1; 2]%Z) in
  let r := PyFilter (fun y => flt (m_dist y) (distance_cutoff ses))
             (zip_with format_hit res dists) in
  search_single_record ses rec w0 = (Ret r, demo_world) /\
  py_len r = None /\
  List.map m_id (zip_with format_hit res dists) = [1; 2; 3] /\
  List.map m_id (fst (py_drain r)) = [1] /\
  fst (py_drain (snd (py_drain r))) = [].
Proof.
  cbv zeta. split; [|by vm_compute].
  refine (proj1 (proj2 (search_single_record_result_is_lazy ses rec w0)
                   (VStr "q.jpg") (VList [1; 2]%Z)
                   [[44; 0]; [45; 0]; [46; 0]]%Z _ _ _ _ _)).
  - vm_compute; reflexivity.
  - vm_compute; reflexivity.
  - vm_compute; reflexivity.
  - vm_compute; lia.
  - vm_compute; lia.
Defined.

End ReRankingExamples.

(** ** The helpers, one call at a time *)

Section Helpers.
Context `{Collaborators}.
Variable cfg : config.

Lemma filter_absent_id i (docs : list doc) :
  existsb (fun d => Nat.eqb (d_id d) i) docs = false ->
  List.filter (fun d => negb (Nat.eqb (d_id d) i)) docs = docs.
Proof.
  induction docs as [|d docs IH]; simpl; [done|].
  destruct (Nat.eqb (d_id d) i); simpl; [discriminate|].
  intros E. by rewrite IH.
Qed.

Lemma es_delete_run i w :
  es_delete (es_index cfg) (es_doc_type cfg) i [404%Z] w
  = (Ret tt,
     {| w_docs := List.filter (fun d => negb (Nat.eqb (d_id d) i)) (w_docs w);
        w_log := w_log w ++ [ev_delete cfg i] |}).
Proof.
  unfold es_delete. run.
  destruct (existsb _ (w_docs w)) eqn:E; simpl; [done|].
  by rewrite filter_absent_id.
Qed.

Lemma delete_ids_run ids w :
  delete_ids cfg ids w
  = (Ret tt,
     {| w_docs := remove_ids ids (w_docs w);
        w_log := w_log w ++ List.map (ev_delete cfg) ids |}).
Proof.
  unfold delete_ids. revert w.
  induction ids as [|i ids IH]; intros w; simpl.
  - destruct w; run. by rewrite app_nil_r.
  - erewrite bind_ret by apply es_delete_run. rewrite IH. simpl.
    by rewrite <- app_assoc.
Qed.

Lemma ids_with_path_run path w :
  ids_with_path cfg path w
  = (Ret (List.map d_id
            (take default_size (List.filter (has_path path) (w_docs w)))),
     logged w [EvSearchPath (es_index cfg) path]).
Proof. reflexivity. Qed.

Lemma paths_at_location_run offset limit w :
  paths_at_location cfg offset limit w
  = (Ret (List.map d_path
            (take (Z.to_nat limit) (drop (Z.to_nat offset) (w_docs w)))),
     logged w [EvSearchPage (es_index cfg) offset limit]).
Proof. reflexivity. Qed.

Lemma add_image_run path img bs metadata w :
  add_image path img bs metadata w
  = match make_record img bs with
    | Raise e => (Raise e, logged w [EvAddImage path img bs metadata])
    | Ret (sig, words) =>
        let id := fresh_id (w_docs w) in
        (Ret tt,
         {| w_docs := w_docs w ++
                      [{| d_id := id; d_path := path; d_signature := sig;
                          d_metadata := stored_metadata metadata;
                          d_words := words |}];
            w_log := w_log w ++ [EvAddImage path img bs metadata;
                                 EvIndex id path] |})
    end.
Proof.
  unfold add_image, es_index_doc. run.
  destruct (make_record img bs) as [[sig words]|]; [|done]. simpl.
  by rewrite <- app_assoc.
Qed.

Lemma get_image_run request url_field file_field w :
  get_image request url_field file_field w
  = match rq_form request !! url_field with
    | Some u => (Ret (Url u, false), w)
    | None =>
        match rq_files request !! file_field with
        | Some content =>
            (Ret (Bytes content, true), logged w [EvFileRead file_field])
        | None => (Raise (BadRequestKeyError file_field), w)
        end
    end.
Proof.
  unfold get_image.
  destruct (rq_form request !! url_field); [done|].
  by destruct (rq_files request !! file_field).
Qed.

Lemma remove_ids_filter ids docs :
  remove_ids ids docs
  = List.filter (fun d => negb (existsb (Nat.eqb (d_id d)) ids)) docs.
Proof.
  unfold remove_ids. revert docs.
  induction ids as [|i ids IH]; intros docs; simpl.
  - induction docs as [|d docs IHd]; simpl; [done|]. by rewrite <- IHd.
  - rewrite IH. clear IH.
    induction docs as [|d docs IHd]; simpl; [done|].
    destruct (Nat.eqb (d_id d) i); simpl; [done|].
    destruct (existsb (Nat.eqb (d_id d)) ids); simpl; by rewrite IHd.
Qed.

End Helpers.

(** ** The routes, path by path *)

Section Routes.
Context `{Collaborators}.
Variable cfg : config.

Lemma add_handler_run request w :
  add_handler cfg request w =
  match rq_form request !! "filepath" with
  | None => (Raise (BadRequestKeyError "filepath"), w)
  | Some path =>
      match metadata_of request with
      | Raise e => (Raise e, w)
      | Ret metadata =>
          match get_image request "url" "image" w with
          | (Raise e, w1) => (Raise e, w1)
          | (Ret (img, bs), w1) =>
              let old_ids :=
                List.map d_id
                  (take default_size
                     (List.filter (has_path path) (w_docs w1))) in
              let searched := [EvSearchPath (es_index cfg) path;
                               EvAddImage path img bs metadata] in
              match make_record img bs with
              | Raise e => (Raise e, logged w1 searched)
              | Ret (sig, words) =>
                  (Ret (ok "add" []),
                   {| w_docs :=
                        remove_ids old_ids
                          (w_docs w1 ++
                           [new_doc (w_docs w1) path sig
                              (stored_metadata metadata) words]);
                      w_log :=
                        w_log w1 ++ searched ++
                        [EvIndex (fresh_id (w_docs w1)) path] ++
                        List.map (ev_delete cfg) old_ids |})
              end
          end
      end
  end.
Proof.
  unfold add_handler, form_item, metadata_of.
  destruct (rq_form request !! "filepath") as [path|]; [|done].
  mstep_refl.
  assert (K : forall metadata,
    (get_image request "url" "image"
       ≫= λ '(img, bs),
            ids_with_path cfg path
              ≫= λ old_ids, add_image path img bs metadata
              ≫= λ _, delete_ids cfg old_ids
              ≫= λ _, mret (ok "add" [])) w
    = match get_image request "url" "image" w with
      | (Raise e, w1) => (Raise e, w1)
      | (Ret (img, bs), w1) =>
          let old_ids :=
            List.map d_id
              (take default_size
                 (List.filter (has_path path) (w_docs w1))) in
          let searched := [EvSearchPath (es_index cfg) path;
                           EvAddImage path img bs metadata] in
          match make_record img bs with
          | Raise e => (Raise e, logged w1 searched)
          | Ret (sig, words) =>
              (Ret (ok "add" []),
               {| w_docs :=
                    remove_ids old_ids
                      (w_docs w1 ++
                       [new_doc (w_docs w1) path sig
                          (stored_metadata metadata) words]);
                  w_log :=
                    w_log w1 ++ searched ++
                    [EvIndex (fresh_id (w_docs w1)) path] ++
                    List.map (ev_delete cfg) old_ids |})
          end
      end).
  { intros metadata.
    destruct (get_image request "url" "image" w) as [[[img bs]|e] w1] eqn:G.
    - mstep G. mstep ids_with_path_run. cbv zeta.
      destruct (make_record img bs) as [[sig words]|e] eqn:R.
      + erewrite bind_ret by (rewrite add_image_run, R; reflexivity).
        mstep delete_ids_run.
        unfold logged, new_doc. run. by rewrite <- !app_assoc.
      + erewrite bind_raise by (rewrite add_image_run, R; reflexivity).
        unfold logged. run. by rewrite <- !app_assoc.
    - by erewrite bind_raise by apply G. }
  destruct (rq_form request !! "metadata") as [s|].
  - destruct (json_loads s) as [j|e].
    + mstep_refl. apply K.
    + by erewrite bind_raise by reflexivity.
  - mstep_refl. apply K.
Qed.

Lemma delete_handler_run request w :
  delete_handler cfg request w =
  match rq_form request !! "filepath" with
  | None => (Raise (BadRequestKeyError "filepath"), w)
  | Some path =>
      let ids :=
        List.map d_id
          (take default_size (List.filter (has_path path) (w_docs w))) in
      (Ret (ok "delete" []),
       {| w_docs := remove_ids ids (w_docs w);
          w_log := w_log w ++ [EvSearchPath (es_index cfg) path] ++
                   List.map (ev_delete cfg) ids |})
  end.
Proof.
  unfold delete_handler, form_item.
  destruct (rq_form request !! "filepath") as [path|]; [|done].
  mstep_refl. mstep ids_with_path_run. mstep delete_ids_run.
  unfold logged. run. by rewrite <- !app_assoc.
Qed.

Lemma search_handler_run request w :
  search_handler cfg request w =
  match get_image request "url" "image" w with
  | (Raise e, w1) => (Raise e, w1)
  | (Ret (img, bs), w1) =>
      let ao := ao_flag cfg request in
      let w2 := logged w1 [EvSearchImage img ao bs] in
      match search_image (w_docs w1) img ao bs with
      | Raise e => (Raise e, w2)
      | Ret matches =>
          (Ret (ok "search"
                  (List.map (fun m => RMatch (dist_to_percent (m_dist m))
                                             (m_path m) (m_metadata m))
                            matches)), w2)
      end
  end.
Proof.
  unfold search_handler.
  destruct (get_image request "url" "image" w) as [[[img bs]|e] w1] eqn:G.
  - mstep G. run.
    by destruct (search_image _ _ _ _).
  - by erewrite bind_raise by apply G.
Qed.

Lemma compare_handler_run request w :
  compare_handler request w =
  match get_image request "url1" "image1" w with
  | (Raise e, w1) => (Raise e, w1)
  | (Ret (img1, bs1), w1) =>
      match get_image request "url2" "image2" w1 with
      | (Raise e, w2) => (Raise e, w2)
      | (Ret (img2, bs2), w2) =>
          match generate_signature img1 bs1 with
          | Raise e => (Raise e, logged w2 [EvGenerateSignature img1 bs1])
          | Ret img1_sig =>
              let w3 := logged w2 [EvGenerateSignature img1 bs1;
                                   EvGenerateSignature img2 bs2] in
              match generate_signature img2 bs2 with
              | Raise e => (Raise e, w3)
              | Ret img2_sig =>
                  (Ret (ok "compare"
                          [RScore (dist_to_percent
                                     (gis_normalized_distance
                                        img1_sig img2_sig))]), w3)
              end
          end
      end
  end.
Proof.
  unfold compare_handler.
  destruct (get_image request "url1" "image1" w)
    as [[[img1 bs1]|e] w1] eqn:G1.
  - mstep G1.
    destruct (get_image request "url2" "image2" w1)
      as [[[img2 bs2]|e] w2] eqn:G2.
    + mstep G2. run.
      destruct (generate_signature img1 bs1); [|done]. simpl.
      destruct (generate_signature img2 bs2); simpl;
        by rewrite <- app_assoc.
    + by erewrite bind_raise by apply G2.
  - by erewrite bind_raise by apply G1.
Qed.

Lemma list_handler_run request w :
  list_handler cfg request w =
  match int_of_param (list_params request) "offset" 0 with
  | Raise e => (Raise e, w)
  | Ret offset =>
      match int_of_param (list_params request) "limit" 20 with
      | Raise e => (Raise e, w)
      | Ret limit =>
          let from := Z.max offset 0 in
          let size := Z.max limit 0 in
          (Ret (ok "list"
                  (List.map RPath
                     (List.map d_path
                        (take (Z.to_nat size)
                           (drop (Z.to_nat from) (w_docs w)))))),
           logged w [EvSearchPage (es_index cfg) from size])
      end
  end.
Proof.
  unfold list_handler, list_params, int_of_param, int_param.
  destruct (rq_method request).
  all: destruct (_ !! "offset") as [so|];
    [destruct (py_int so) as [offset|]; [|done]|].
  all: destruct (_ !! "limit") as [sl|];
    [destruct (py_int sl) as [limit|]|].
  all: done.
Qed.

End Routes.

(** ** Adding and deleting *)

Section AddDelete.
Context `{Collaborators}.
Variable cfg : config.

Lemma get_image_world request url_field file_field w o w1 :
  get_image request url_field file_field w = (o, w1) ->
  w_docs w1 = w_docs w /\
  exists reads, w_log w1 = (w_log w ++ reads)%list /\
                (reads = [] \/ reads = [EvFileRead file_field]).
Proof.
  rewrite get_image_run.
  destruct (rq_form request !! url_field).
  - intros [= <- <-]. split; [done|]. exists []. by rewrite app_nil_r; auto.
  - destruct (rq_files request !! file_field); intros [= <- <-].
    + split; [done|]. exists [EvFileRead file_field]. auto.
    + split; [done|]. exists []. by rewrite app_nil_r; auto.
Qed.

Lemma existsb_old_id path (docs : list doc) d :
  In d docs -> has_path path d = true ->
  existsb (Nat.eqb (d_id d))
    (List.map d_id (List.filter (has_path path) docs)) = true.
Proof.
  intros Hin P. apply existsb_exists. exists (d_id d). split.
  - apply in_map. apply filter_In. by split.
  - apply Nat.eqb_refl.
Qed.

Lemma filter_path_removed path (docs : list doc) :
  List.filter (has_path path)
    (List.filter
       (fun d => negb (existsb (Nat.eqb (d_id d))
                  (List.map d_id (List.filter (has_path path) docs))))
       docs) = [].
Proof.
  assert (G : forall ds, (forall d, In d ds -> In d docs) ->
    List.filter (has_path path)
      (List.filter
         (fun d => negb (existsb (Nat.eqb (d_id d))
                    (List.map d_id (List.filter (has_path path) docs))))
         ds) = []).
  { induction ds as [|d ds IH]; intros Sub; simpl; [done|].
    destruct (has_path path d) eqn:P.
    - rewrite existsb_old_id; [|apply Sub; by left|done]. simpl.
      apply IH. intros d' ?. apply Sub. by right.
    - destruct (negb _); simpl; rewrite ?P;
        apply IH; intros d' ?; apply Sub; by right. }
  by apply G.
Qed.

Lemma old_ids_stored path (docs : list doc) i :
  In i (List.map d_id (List.filter (has_path path) docs)) ->
  In i (List.map d_id docs).
Proof.
  intros (d & <- & [Hin _]%filter_In)%in_map_iff. by apply in_map.
Qed.

Lemma existsb_eqb_false i ids :
  ~ In i ids -> existsb (Nat.eqb i) ids = false.
Proof.
  intros N. destruct (existsb (Nat.eqb i) ids) eqn:E; [|done].
  apply existsb_exists in E as (j & Hin & ->%Nat.eqb_eq). done.
Qed.

(** What is stored under [path] once the old identifiers are gone. *)
Lemma replaced_path path docs (new : doc) :
  d_path new = path ->
  ~ In (d_id new) (List.map d_id docs) ->
  List.filter (has_path path)
    (remove_ids (List.map d_id (List.filter (has_path path) docs))
                (docs ++ [new]))
  = [new].
Proof.
  intros P F. rewrite remove_ids_filter, !List.filter_app, filter_path_removed.
  simpl. rewrite existsb_eqb_false.
  - simpl. unfold has_path. rewrite P, String.eqb_refl. done.
  - intros Hin. apply F. by eapply old_ids_stored.
Qed.

Lemma ids_unique_eq docs d x :
  ids_unique docs -> In d docs -> In x docs -> d_id d = d_id x -> d = x.
Proof.
  unfold ids_unique. induction docs as [|y docs IH]; simpl; [done|].
  intros [N' N]%NoDup_cons [->|Hd] [->|Hx] E; try done.
  - exfalso. apply N'. rewrite E. apply list_elem_of_In. by apply in_map.
  - exfalso. apply N'. rewrite <- E. apply list_elem_of_In. by apply in_map.
  - by apply IH.
Qed.

Lemma ids_unique_filter f docs :
  ids_unique docs -> ids_unique (List.filter f docs).
Proof.
  unfold ids_unique. induction docs as [|y docs IH]; simpl; [done|].
  intros [N' N]%NoDup_cons. destruct (f y); [|by apply IH]. simpl.
  apply NoDup_cons. split; [|by apply IH].
  intros Hin. apply N'. apply list_elem_of_In in Hin.
  apply in_map_iff in Hin as (d & E & [Hd _]%filter_In).
  apply list_elem_of_In. rewrite <- E. by apply in_map.
Qed.

Lemma filter_comm {A} (f g : A -> bool) (l : list A) :
  List.filter f (List.filter g l) = List.filter g (List.filter f l).
Proof.
  induction l as [|x l IH]; simpl; [done|].
  destruct (g x) eqn:G, (f x) eqn:F; simpl; rewrite ?G, ?F, ?IH; done.
Qed.

(** Deleting the identifiers of the first [n] records of a list with
    unique identifiers leaves the records after them. *)
Lemma filter_not_taken n (l : list doc) :
  ids_unique l ->
  List.filter
    (fun d => negb (existsb (Nat.eqb (d_id d)) (List.map d_id (take n l)))) l
  = drop n l.
Proof.
  revert n. induction l as [|x l IH]; intros n U; [by destruct n|].
  destruct n as [|n]; simpl.
  { f_equal. clear. induction l as [|y l IH]; simpl; [done|]. by rewrite IH. }
  rewrite Nat.eqb_refl. simpl.
  apply NoDup_cons in U as [N' U]. rewrite <- (IH n U).
  apply List.filter_ext_in. intros d Hd.
  destruct (Nat.eqb_spec (d_id d) (d_id x)) as [E|_]; [|done].
  exfalso. apply N'. rewrite <- E. apply list_elem_of_In. by apply in_map.
Qed.

Lemma not_listed_other_path path n docs d :
  ids_unique docs -> In d docs -> has_path path d = false ->
  existsb (Nat.eqb (d_id d))
    (List.map d_id (take n (List.filter (has_path path) docs))) = false.
Proof.
  intros U Hd P.
  destruct (existsb _ _) eqn:E; [|done]. exfalso.
  apply existsb_exists in E as (i & Hi & Ei%Nat.eqb_eq).
  apply in_map_iff in Hi as (x & Ex & Hx).
  apply list_elem_of_In, elem_of_take in Hx as (k & Hx & _).
  apply list_elem_of_lookup_2, list_elem_of_In, filter_In in Hx as [Hx Px].
  assert (x = d) by (eapply ids_unique_eq; [done|done|done|congruence]).
  subst x. congruence.
Qed.

Lemma removed_under_path path n docs :
  ids_unique docs ->
  List.filter (has_path path)
    (remove_ids (List.map d_id (take n (List.filter (has_path path) docs)))
                docs)
  = drop n (List.filter (has_path path) docs).
Proof.
  intros U. rewrite remove_ids_filter, filter_comm.
  apply filter_not_taken. by apply ids_unique_filter.
Qed.

Lemma removed_others path n docs :
  ids_unique docs ->
  List.filter (other_path path)
    (remove_ids (List.map d_id (take n (List.filter (has_path path) docs)))
                docs)
  = List.filter (other_path path) docs.
Proof.
  intros U. rewrite remove_ids_filter, filter_comm.
  set (l := List.filter (other_path path) docs).
  assert (Sub : forall d, In d l -> In d docs /\ has_path path d = false).
  { intros d [Hd O]%filter_In. split; [done|].
    unfold other_path in O. by destruct (has_path path d). }
  clearbody l. induction l as [|d l IH]; simpl; [done|].
  destruct (Sub d) as [Hd P]; [by left|].
  rewrite (not_listed_other_path path n docs d U Hd P). simpl.
  f_equal. apply IH. intros d' ?. apply Sub. by right.
Qed.

Lemma remove_ids_app_new ids docs (new : doc) :
  ~ In (d_id new) ids ->
  remove_ids ids (docs ++ [new]) = (remove_ids ids docs ++ [new])%list.
Proof.
  intros N. rewrite !remove_ids_filter, List.filter_app. simpl.
  by rewrite existsb_eqb_false.
Qed.

Lemma taken_ids_stored path n docs i :
  In i (List.map d_id (take n (List.filter (has_path path) docs))) ->
  In i (List.map d_id docs).
Proof.
  intros (d & <- & Hd)%in_map_iff.
  apply list_elem_of_In, elem_of_take in Hd as (k & Hd & _).
  apply list_elem_of_lookup_2, list_elem_of_In, filter_In in Hd as [Hd _].
  by apply in_map.
Qed.

(** C3, as the code has it: [add_handler] looks up the identifiers
    stored under the path, then has the new record indexed, then deletes
    the identifiers it looked up, in that order and with no other call to
    the index.  The lookup names no size, so it returns the identifiers of
    the first default page of the records of the path, not of all of them.
    The new record's identifier is not among the deleted ones.  After an
    add that returns, the records of the path are those beyond the page
    followed by the new record; so the new record is the one record of
    the path whenever the path had no more records than the page holds.
    An add returns exactly when the metadata parses, the image is given
    and [make_record] can read it. *)
Theorem add_handler_replaces request path w :
  (forall docs, ~ In (fresh_id docs) (List.map d_id docs)) ->
  rq_form request !! "filepath" = Some path ->
  let stored := List.filter (has_path path) (w_docs w) in
  let old_ids := List.map d_id (take default_size stored) in
  (forall resp w', add_handler cfg request w = (Ret resp, w') ->
     exists img bs w1 metadata sig words,
       metadata_of request = Ret metadata /\
       get_image request "url" "image" w = (Ret (img, bs), w1) /\
       make_record img bs = Ret (sig, words)) /\
  (forall img bs w1 metadata sig words,
     metadata_of request = Ret metadata ->
     get_image request "url" "image" w = (Ret (img, bs), w1) ->
     make_record img bs = Ret (sig, words) ->
     let new :=
       new_doc (w_docs w) path sig (stored_metadata metadata) words in
     exists w',
       add_handler cfg request w = (Ret (ok "add" []), w') /\
       w_log w'
       = (w_log w1 ++
          [EvSearchPath (es_index cfg) path;
           EvAddImage path img bs metadata;
           EvIndex (d_id new) path] ++
          List.map (ev_delete cfg) old_ids)%list /\
       w_docs w' = remove_ids old_ids (w_docs w ++ [new]) /\
       ~ In (d_id new) old_ids /\
       In new (w_docs w') /\
       (ids_unique (w_docs w) ->
        List.filter (has_path path) (w_docs w')
        = (drop default_size stored ++ [new])%list) /\
       (length stored <= default_size ->
        List.filter (has_path path) (w_docs w') = [new])).
Proof.
  intros Fresh P stored old_ids. split.
  - intros resp w'. rewrite add_handler_run, P.
    destruct (metadata_of request) as [metadata|]; [|done].
    destruct (get_image request "url" "image" w) as [[[img bs]|e] w1];
      [|done].
    cbv zeta.
    destruct (make_record img bs) as [[sig words]|] eqn:R; [|done].
    intros _. by exists img, bs, w1, metadata, sig, words.
  - intros img bs w1 metadata sig words Md G R new.
    rewrite add_handler_run, P, Md, G. cbv zeta. rewrite R.
    apply get_image_world in G as (D & _). rewrite D.
    fold stored. fold old_ids. fold new.
    assert (N : ~ In (d_id new) old_ids).
    { intros Hin. apply (Fresh (w_docs w)). by eapply taken_ids_stored. }
    eexists. split; [reflexivity|]. simpl.
    split; [done|]. split; [done|]. split; [done|].
    split; [|split].
    + rewrite remove_ids_app_new by done. apply in_app_iff. right. by left.
    + intros U. rewrite remove_ids_app_new by done.
      rewrite List.filter_app. unfold old_ids, stored.
      rewrite removed_under_path by done. simpl.
      unfold has_path at 2. simpl. by rewrite String.eqb_refl.
    + intros Fit. unfold old_ids. rewrite take_ge by done.
      apply replaced_path; [done|apply Fresh].
Qed.

(** C7: deleting an identifier that is not stored is not an error and
    changes nothing; [delete_ids] never raises; [delete_handler] on a
    path that no record has returns the success response and leaves the
    index as it was, the second time as the first; and on any index two
    deletes of a path in a row both return the success response, the
    second one finding nothing left to delete when the first lookup
    held every record of the path. *)
Theorem delete_is_idempotent :
  (forall i w,
     existsb (fun d => Nat.eqb (d_id d) i) (w_docs w) = false ->
     es_delete (es_index cfg) (es_doc_type cfg) i [404%Z] w
     = (Ret tt, logged w [ev_delete cfg i])) /\
  (forall ids w, exists w', delete_ids cfg ids w = (Ret tt, w')) /\
  (forall request path w,
     rq_form request !! "filepath" = Some path ->
     List.filter (has_path path) (w_docs w) = [] ->
     let searched := EvSearchPath (es_index cfg) path in
     delete_handler cfg request w
     = (Ret (ok "delete" []), logged w [searched]) /\
     delete_handler cfg request (logged w [searched])
     = (Ret (ok "delete" []), logged w [searched; searched])) /\
  (forall request path w,
     rq_form request !! "filepath" = Some path ->
     exists w1 w2,
       delete_handler cfg request w = (Ret (ok "delete" []), w1) /\
       delete_handler cfg request w1 = (Ret (ok "delete" []), w2) /\
       (length (List.filter (has_path path) (w_docs w)) <= default_size ->
        List.filter (has_path path) (w_docs w1) = [] /\
        w_docs w2 = w_docs w1)).
Proof.
  split; [|split; [|split]].
  - intros i w E. rewrite es_delete_run, filter_absent_id by done.
    reflexivity.
  - intros ids w. rewrite delete_ids_run. eauto.
  - intros request path w P E searched.
    rewrite !delete_handler_run, P. cbv zeta. simpl. rewrite E.
    rewrite take_nil. simpl. unfold logged. simpl.
    split; [done|]. by rewrite <- app_assoc.
  - intros request path w P. rewrite delete_handler_run, P. cbv zeta.
    eexists _, _. split; [reflexivity|].
    rewrite delete_handler_run, P. split; [reflexivity|].
    intros Fit. simpl. rewrite (take_ge _ _ Fit).
    rewrite remove_ids_filter, filter_path_removed. by rewrite take_nil.
Qed.

End AddDelete.

(** ** One record per path, as an invariant of the index *)

Section OnePerPath.
Context `{Collaborators}.
Variable cfg : config.

Lemma filter_filter_length {A} (f g : A -> bool) (l : list A) :
  length (List.filter f (List.filter g l)) <= length (List.filter f l).
Proof.
  induction l as [|x l IH]; simpl; [done|].
  destruct (g x), (f x) eqn:F; simpl; rewrite ?F; simpl; lia.
Qed.

Lemma remove_ids_one_per_path ids docs :
  one_per_path docs -> one_per_path (remove_ids ids docs).
Proof.
  intros One path. rewrite remove_ids_filter.
  etransitivity; [apply filter_filter_length|apply One].
Qed.

(** X13: [delete_handler] keeps the invariant that no path has more than
    one record, whatever the request and whatever the outcome. *)
Lemma delete_handler_one_per_path request w o w' :
  one_per_path (w_docs w) ->
  delete_handler cfg request w = (o, w') ->
  one_per_path (w_docs w').
Proof.
  intros One. rewrite delete_handler_run.
  destruct (rq_form request !! "filepath"); intros [= <- <-]; [|done].
  by apply remove_ids_one_per_path.
Qed.

(** X12: an add that returns keeps the invariant that no path has more
    than one record, for an engine whose identifiers are new and whose
    default page holds at least one hit. *)
Lemma add_handler_one_per_path request w resp w' :
  (forall docs, ~ In (fresh_id docs) (List.map d_id docs)) ->
  1 <= default_size ->
  one_per_path (w_docs w) ->
  add_handler cfg request w = (Ret resp, w') ->
  one_per_path (w_docs w').
Proof.
  intros Fresh Page One. rewrite add_handler_run.
  destruct (rq_form request !! "filepath") as [path|]; [|done].
  destruct (metadata_of request) as [metadata|]; [|done].
  destruct (get_image request "url" "image" w) as [[[img bs]|e] w1] eqn:G;
    [|done].
  apply get_image_world in G as [D _]. rewrite D. cbv zeta.
  destruct (make_record img bs) as [[sig words]|]; [|done].
  intros [= <- <-]. simpl. intros q.
  rewrite take_ge by (etransitivity; [apply One|done]).
  destruct (String.eqb_spec path q) as [<-|Ne].
  - rewrite replaced_path; [done|done|apply Fresh].
  - rewrite remove_ids_filter.
    etransitivity; [apply filter_filter_length|].
    rewrite List.filter_app. simpl. unfold has_path at 2. simpl.
    destruct (String.eqb_spec path q) as [?|_]; [done|].
    rewrite app_nil_r. apply One.
Qed.

(** A delete of a missing identifier that does not ask to ignore
    status 404 raises. *)
Lemma es_delete_missing_raises i w :
  existsb (fun d => Nat.eqb (d_id d) i) (w_docs w) = false ->
  es_delete (es_index cfg) (es_doc_type cfg) i [] w
  = (Raise (NotFoundError i),
     logged w [EvDelete (es_index cfg) (es_doc_type cfg) i []]).
Proof. intros E. unfold es_delete. run. by rewrite E. Qed.

End OnePerPath.

(** ** Scores, pages, orientations and image input *)

Section Presentation.
Context `{Collaborators}.
Variable cfg : config.

(** C6: the score presented is [(1 - distance) * 100], computed in
    binary64 arithmetic.  When the image of a search is given and
    [search_image] returns its matches, [search_handler] returns one entry
    for each match, in their order, with the score [(1 - dist) * 100] of
    the [dist] of that match, its path and its metadata.  When the two
    images of a comparison are given and their signatures can be
    generated, [compare_handler] returns the one score
    [(1 - distance) * 100] of the normalized distance between the
    signature of the first image and that of the second.  And a search or
    a comparison that returns has returned just that. *)
Theorem scores_are_percentages request w :
  let percent := fun d => fmul (fsub (float_of_Z 1) d) (float_of_Z 100) in
  let entry := fun m => RMatch (percent (m_dist m)) (m_path m)
                               (m_metadata m) in
  (forall img bs w1 matches,
     get_image request "url" "image" w = (Ret (img, bs), w1) ->
     search_image (w_docs w1) img (ao_flag cfg request) bs = Ret matches ->
     search_handler cfg request w
     = (Ret (ok "search" (List.map entry matches)),
        logged w1 [EvSearchImage img (ao_flag cfg request) bs])) /\
  (forall img1 bs1 w1 img2 bs2 w2 sig1 sig2,
     get_image request "url1" "image1" w = (Ret (img1, bs1), w1) ->
     get_image request "url2" "image2" w1 = (Ret (img2, bs2), w2) ->
     generate_signature img1 bs1 = Ret sig1 ->
     generate_signature img2 bs2 = Ret sig2 ->
     compare_handler request w
     = (Ret (ok "compare"
               [RScore (percent (gis_normalized_distance sig1 sig2))]),
        logged w2 [EvGenerateSignature img1 bs1;
                   EvGenerateSignature img2 bs2])) /\
  (forall resp w', search_handler cfg request w = (Ret resp, w') ->
     exists img bs w1 matches,
       get_image request "url" "image" w = (Ret (img, bs), w1) /\
       search_image (w_docs w1) img (ao_flag cfg request) bs = Ret matches /\
       resp = ok "search" (List.map entry matches)) /\
  (forall resp w', compare_handler request w = (Ret resp, w') ->
     exists img1 bs1 w1 img2 bs2 w2 sig1 sig2,
       get_image request "url1" "image1" w = (Ret (img1, bs1), w1) /\
       get_image request "url2" "image2" w1 = (Ret (img2, bs2), w2) /\
       generate_signature img1 bs1 = Ret sig1 /\
       generate_signature img2 bs2 = Ret sig2 /\
       resp = ok "compare"
                [RScore (percent (gis_normalized_distance sig1 sig2))]).
Proof.
  intros percent entry. split; [|split; [|split]].
  - intros img bs w1 matches G S.
    rewrite search_handler_run, G. cbv zeta. by rewrite S.
  - intros img1 bs1 w1 img2 bs2 w2 sig1 sig2 G1 G2 S1 S2.
    rewrite compare_handler_run, G1, G2, S1. cbv zeta. by rewrite S2.
  - intros resp w'. rewrite search_handler_run.
    destruct (get_image request "url" "image" w) as [[[img bs]|e] w1];
      [|discriminate].
    cbv zeta.
    destruct (search_image _ _ _ _) as [matches|] eqn:S; [|discriminate].
    intros [= <- <-]. by exists img, bs, w1, matches.
  - intros resp w'. rewrite compare_handler_run.
    destruct (get_image request "url1" "image1" w)
      as [[[img1 bs1]|e] w1]; [|discriminate].
    destruct (get_image request "url2" "image2" w1)
      as [[[img2 bs2]|e] w2] eqn:G2; [|discriminate].
    destruct (generate_signature img1 bs1) as [sig1|] eqn:S1;
      [|discriminate].
    cbv zeta.
    destruct (generate_signature img2 bs2) as [sig2|] eqn:S2;
      [|discriminate].
    intros [= <- <-]. by exists img1, bs1, w1, img2, bs2, w2, sig1, sig2.
Qed.

(** C8: [list_handler] either fails to read a number, and then asks the
    index nothing, or issues one paginated lookup whose offset and limit
    are the numbers it read, raised to 0 when negative.  With offset
    "-5" and limit "-1" it does what it does with "0" and "0": it asks
    for the page (0, 0) and returns no path. *)
Theorem list_handler_clamps request w :
  (forall o w', list_handler cfg request w = (o, w') ->
     (exists e, o = Raise e /\ w' = w) \/
     (exists offset limit,
        int_of_param (list_params request) "offset" 0 = Ret offset /\
        int_of_param (list_params request) "limit" 20 = Ret limit /\
        (0 <= Z.max offset 0)%Z /\ (0 <= Z.max limit 0)%Z /\
        (o, w') = (paths ← paths_at_location cfg (Z.max offset 0)
                                             (Z.max limit 0);
                   mret (ok "list" (List.map RPath paths))) w /\
        w_log w' = (w_log w ++ [EvSearchPage (es_index cfg)
                                  (Z.max offset 0) (Z.max limit 0)])%list))
  /\
  (list_params request !! "offset" = Some "-5" ->
   list_params request !! "limit" = Some "-1" ->
   list_handler cfg request w
   = (Ret (ok "list" []), logged w [EvSearchPage (es_index cfg) 0 0]) /\
   forall request0,
     list_params request0 !! "offset" = Some "0" ->
     list_params request0 !! "limit" = Some "0" ->
     list_handler cfg request0 w = list_handler cfg request w).
Proof.
  split.
  - intros o w'. rewrite list_handler_run.
    destruct (int_of_param _ "offset" 0) as [offset|e].
    2:{ intros [= <- <-]. left. eauto. }
    destruct (int_of_param _ "limit" 20) as [limit|e].
    2:{ intros [= <- <-]. left. eauto. }
    cbv zeta. intros [= <- <-]. right. exists offset, limit.
    repeat split; try done; lia.
  - intros O L.
    assert (E : list_handler cfg request w
                = (Ret (ok "list" []),
                   logged w [EvSearchPage (es_index cfg) 0 0])).
    { rewrite list_handler_run. unfold int_of_param. rewrite O, L.
      reflexivity. }
    split; [done|]. intros request0 O0 L0. rewrite E.
    rewrite list_handler_run. unfold int_of_param. rewrite O0, L0.
    reflexivity.
Qed.

(** C9: [search_handler] passes [search_image] the flag
    [all_orientations] computed for this request: the value of the form
    field [all_orientations] when the request has it, the process-wide
    default otherwise, compared with the string "true".  The flag is set
    exactly when that value is "true". *)
Theorem search_handler_orientation_flag request w img bs w1 :
  get_image request "url" "image" w = (Ret (img, bs), w1) ->
  let effective := default (all_orientations cfg)
                           (rq_form request !! "all_orientations") in
  let ao := ao_flag cfg request in
  (exists o, search_handler cfg request w
             = (o, logged w1 [EvSearchImage img ao bs]) /\
             o = match search_image (w_docs w1) img ao bs with
                 | Raise e => Raise e
                 | Ret matches =>
                     Ret (ok "search"
                            (List.map
                               (fun m => RMatch (dist_to_percent (m_dist m))
                                                (m_path m) (m_metadata m))
                               matches))
                 end) /\
  (ao = true <-> effective = "true") /\
  (forall v, rq_form request !! "all_orientations" = Some v ->
             (ao = true <-> v = "true")) /\
  (rq_form request !! "all_orientations" = None ->
   (ao = true <-> all_orientations cfg = "true")).
Proof.
  intros G effective ao. split; [|split; [|split]].
  - rewrite search_handler_run, G. cbv zeta. fold ao.
    destruct (search_image _ _ _ _); eauto.
  - apply String.eqb_eq.
  - intros v V. unfold ao, ao_flag. rewrite V. apply String.eqb_eq.
  - intros V. unfold ao, ao_flag. rewrite V. apply String.eqb_eq.
Qed.

End Presentation.

Section ImageInput.
Context `{Collaborators}.
Variable cfg : config.

(** C10: when the form has the URL field, [get_image] returns that
    value, flagged as a location and not as bytes, and reads no upload,
    whatever the request's files are; an upload is read only when the
    URL field is missing.  So [add_handler], [search_handler] and
    [compare_handler] hand the URL to the library and do the same
    whatever files come with the request. *)
Theorem url_field_takes_precedence request w :
  (forall url_field file_field u,
     rq_form request !! url_field = Some u ->
     forall files,
       get_image (with_files request files) url_field file_field w
       = (Ret (Url u, false), w)) /\
  (forall url_field file_field,
     rq_form request !! url_field = None ->
     get_image request url_field file_field w
     = match rq_files request !! file_field with
       | Some content =>
           (Ret (Bytes content, true), logged w [EvFileRead file_field])
       | None => (Raise (BadRequestKeyError file_field), w)
       end) /\
  (forall url_field file_field o w',
     get_image request url_field file_field w = (o, w') ->
     In (EvFileRead file_field) (w_log w') ->
     ~ In (EvFileRead file_field) (w_log w) ->
     rq_form request !! url_field = None) /\
  (forall u, rq_form request !! "url" = Some u ->
     (exists o, search_handler cfg request w
                = (o, logged w [EvSearchImage (Url u) (ao_flag cfg request)
                                              false])) /\
     (forall path metadata,
        rq_form request !! "filepath" = Some path ->
        metadata_of request = Ret metadata ->
        exists o w' rest,
          add_handler cfg request w = (o, w') /\
          w_log w'
          = (w_log w ++ EvSearchPath (es_index cfg) path ::
                        EvAddImage path (Url u) false metadata :: rest)%list
          /\
          List.filter is_file_read rest = []) /\
     forall files,
       search_handler cfg (with_files request files) w
       = search_handler cfg request w /\
       add_handler cfg (with_files request files) w
       = add_handler cfg request w) /\
  (forall u1 u2,
     rq_form request !! "url1" = Some u1 ->
     rq_form request !! "url2" = Some u2 ->
     (exists o rest,
        compare_handler request w
        = (o, logged w (EvGenerateSignature (Url u1) false :: rest)) /\
        (rest = [] \/ rest = [EvGenerateSignature (Url u2) false])) /\
     forall files,
       compare_handler (with_files request files) w
       = compare_handler request w).
Proof.
  split; [|split; [|split; [|split]]].
  - intros url_field file_field u U files. rewrite get_image_run. simpl.
    by rewrite U.
  - intros url_field file_field U. rewrite get_image_run. by rewrite U.
  - intros url_field file_field o w'. rewrite get_image_run.
    destruct (rq_form request !! url_field); [|done].
    by intros [= <- <-].
  - intros u U. split; [|split].
    + rewrite search_handler_run, get_image_run, U. cbv zeta.
      destruct (search_image _ _ _ _); eauto.
    + intros path metadata P Md.
      rewrite add_handler_run, P, Md, get_image_run, U. cbv zeta.
      destruct (make_record _ _) as [[sig words]|].
      * eexists _, _, _. split; [reflexivity|]. split; [reflexivity|].
        simpl. induction (List.map d_id _) as [|i ids IH]; [done|].
        apply IH.
      * by eexists _, _, [].
    + intros files. split.
      * rewrite !search_handler_run, !get_image_run. simpl. by rewrite U.
      * rewrite !add_handler_run, !get_image_run. unfold metadata_of.
        simpl. by rewrite U.
  - intros u1 u2 U1 U2. split.
    + rewrite compare_handler_run, get_image_run, U1.
      rewrite get_image_run, U2.
      destruct (generate_signature (Url u1) false).
      * cbv zeta. destruct (generate_signature (Url u2) false);
          eexists _, _; (split; [reflexivity|]); by right.
      * eexists _, []. split; [reflexivity|]. by left.
    + intros files. rewrite !compare_handler_run.
      rewrite (get_image_run request), (get_image_run (with_files _ _)).
      simpl. rewrite U1.
      rewrite (get_image_run request), (get_image_run (with_files _ _)).
      simpl. by rewrite U2.
Qed.

End ImageInput.

(** *** The routes on the demo index *)

Module RouteExamples.
Import Demo Fixtures.

Lemma demo_fresh (ds : list doc) :
  ~ In (fresh_id ds) (List.map d_id ds).
Proof.
  simpl. intros Hin.
  assert (L : Forall (fun k => k <= list_max (List.map d_id ds))
                     (List.map d_id ds)).
  { by apply list_max_le. }
  rewrite List.Forall_forall in L. apply L in Hin. lia.
Qed.

(** C3 fails on the code: on an index that holds thirteen records
    under "a.jpg", the lookup returns ten identifiers, and after the add
    has returned the path has four records, the three that the lookup left
    out and the new one. *)
Lemma add_handler_keeps_records_beyond_the_page :
  exists ids w1 w',
    length (List.filter (has_path "a.jpg") (w_docs crowded)) = 13 /\
    ids_with_path cfg "a.jpg" crowded = (Ret ids, w1) /\
    length ids = 10 /\
    add_handler cfg readd crowded = (Ret (ok "add" []), w') /\
    List.map d_id (List.filter (has_path "a.jpg") (w_docs w'))
    = [11; 12; 13; 14] /\
    ~ length (List.filter (has_path "a.jpg") (w_docs w')) <= 1.
Proof.
  eexists _, _, _. split; [vm_compute; reflexivity|].
  split; [vm_compute; reflexivity|]. split; [vm_compute; reflexivity|].
  split; [vm_compute; reflexivity|]. split; [vm_compute; reflexivity|].
  vm_compute. lia.
Qed.

(** Re-adding "a.jpg" on the demo index: record 1 goes, record 4 comes. *)
Lemma add_handler_replaces_witness :
  let new := new_doc (w_docs w0) "a.jpg" [8%Z] None
               [("simple_word_0", 8%Z)] in
  exists w',
    add_handler cfg readd w0 = (Ret (ok "add" []), w') /\
    w_log w'
    = [EvSearchPath "images" "a.jpg";
       EvAddImage "a.jpg" (Url "http://x") false None;
       EvIndex 4 "a.jpg";
       EvDelete "images" "image" 1 [404%Z]] /\
    List.map d_id (w_docs w') = [2; 3; 4] /\
    List.filter (has_path "a.jpg") (w_docs w') = [new].
Proof.
  cbv zeta.
  destruct (proj2 (add_handler_replaces cfg readd "a.jpg" w0 demo_fresh
                     eq_refl)
              (Url "http://x") false w0 None [8%Z] [("simple_word_0", 8%Z)])
    as (w' & E & L & D & _ & _ & _ & F).
  - vm_compute; reflexivity.
  - vm_compute; reflexivity.
  - vm_compute; reflexivity.
  - exists w'. split; [exact E|].
    split; [rewrite L; vm_compute; reflexivity|].
    split; [rewrite D; vm_compute; reflexivity|].
    apply F. vm_compute. lia.
Defined.

(** Metadata that counts as false is not stored. *)
Example add_handler_empty_metadata :
  exists w',
    add_handler cfg add_with_empty_metadata w0 = (Ret (ok "add" []), w') /\
    In (EvAddImage "d.jpg" (Url "http://x") false (Some (JStr "")))
       (w_log w') /\
    List.map d_metadata (List.filter (has_path "d.jpg") (w_docs w'))
    = [None].
Proof.
  eexists. split; [vm_compute; reflexivity|].
  split; [vm_compute; tauto|vm_compute; reflexivity].
Qed.

Lemma delete_is_idempotent_witness :
  let searched := EvSearchPath "images" "missing.jpg" in
  delete_handler cfg delete_missing w0
  = (Ret (ok "delete" []), logged w0 [searched]) /\
  delete_handler cfg delete_missing (logged w0 [searched])
  = (Ret (ok "delete" []), logged w0 [searched; searched]).
Proof.
  refine (proj1 (proj2 (proj2 (delete_is_idempotent cfg)))
            delete_missing "missing.jpg" w0 _ _); vm_compute; reflexivity.
Defined.

(** Distance 0 is 100, distance 1 is 0, and distance 0.45 is
    55.00000000000001, as Python computes them. *)
Example dist_to_percent_values :
  dist_to_percent (float_of_Z 0) = float_of_Z 100 /\
  dist_to_percent (float_of_Z 1) = S754_zero false /\
  dist_to_percent (hundredths 45) = S754_finite false 7740561859543041 (-47).
Proof. repeat split; vm_compute; reflexivity. Qed.

(** A search on the demo index presents the three stored images with
    the scores of 0.44, 0.45 and 0.46, and two images at distance 0.5
    compare at 50. *)
Lemma scores_are_percentages_witness :
  let percent := fun d => fmul (fsub (float_of_Z 1) d) (float_of_Z 100) in
  search_handler cfg search_by_url w0
  = (Ret (ok "search"
            [RMatch (percent (hundredths 44)) (Some "a.jpg") None;
             RMatch (percent (hundredths 45)) (Some "b.jpg") None;
             RMatch (percent (hundredths 46)) (Some "c.jpg") None]),
     logged w0 [EvSearchImage (Url "http://x") false false]) /\
  compare_handler compare_two w0
  = (Ret (ok "compare" [RScore (percent (hundredths 50))]),
     logged w0 [EvGenerateSignature (Url "http://x") false;
                EvGenerateSignature (Url "http://yy") false]) /\
  percent (hundredths 50) = float_of_Z 50.
Proof.
  cbv zeta. split; [|split; [|vm_compute; reflexivity]].
  - refine (proj1 (scores_are_percentages cfg search_by_url w0)
              (Url "http://x") false w0
              (List.map (fun d => format_hit (hit_of_doc d)
                                    (hundredths (hd 0%Z (d_signature d))))
                        docs) _ _); vm_compute; reflexivity.
  - refine (proj1 (proj2 (scores_are_percentages cfg compare_two w0))
              (Url "http://x") false w0 (Url "http://yy") false w0
              [8%Z] [9%Z] _ _ _ _); vm_compute; reflexivity.
Defined.

Lemma list_handler_clamps_witness :
  list_handler cfg list_negative w0
  = (Ret (ok "list" []), logged w0 [EvSearchPage "images" 0 0]) /\
  list_handler cfg list_zero w0 = list_handler cfg list_negative w0.
Proof.
  destruct (proj2 (list_handler_clamps cfg list_negative w0)) as [E Z].
  - vm_compute; reflexivity.
  - vm_compute; reflexivity.
  - split; [exact E|]. apply Z; vm_compute; reflexivity.
Defined.

(** "True" is not "true": this request searches the identity
    orientation only, although the default is "true". *)
Lemma search_handler_orientation_flag_witness :
  ao_flag cfg search_by_url = false /\
  (ao_flag cfg search_by_url = true <->
   default (all_orientations cfg)
           (rq_form search_by_url !! "all_orientations") = "true").
Proof.
  split; [vm_compute; reflexivity|].
  refine (proj1 (proj2 (search_handler_orientation_flag cfg search_by_url
                          w0 (Url "http://x") false w0 _))).
  vm_compute; reflexivity.
Defined.

(** The upload of [search_by_url] is not read, and swapping it for
    another one changes nothing. *)
Lemma url_field_takes_precedence_witness :
  get_image search_by_url "url" "image" w0 = (Ret (Url "http://x", false), w0)
  /\ get_image (with_files search_by_url {["image" := "other bytes"]})
       "url" "image" w0
     = (Ret (Url "http://x", false), w0).
Proof.
  split.
  - refine (proj1 (url_field_takes_precedence cfg search_by_url w0)
              "url" "image" "http://x" _ (rq_files search_by_url)).
    vm_compute; reflexivity.
  - refine (proj1 (url_field_takes_precedence cfg search_by_url w0)
              "url" "image" "http://x" _ {["image" := "other bytes"]}).
    vm_compute; reflexivity.
Defined.

End RouteExamples.

(** * Further properties *)

(** ** More on [search_single_record] *)

Section MoreReRanking.
Context `{Collaborators}.

Lemma comprehension_raises {A B} (f : A -> outcome B) xs x e :
  In x xs -> f x = Raise e -> exists e', comprehension f xs = Raise e'.
Proof.
  induction xs as [|y xs IH]; simpl; [done|].
  intros [->|Hin] E.
  - rewrite E. eauto.
  - destruct (f y); [|eauto].
    destruct (IH Hin E) as [e' ->]. eauto.
Qed.

Lemma comprehension_hit_signature_error hits e :
  comprehension hit_signature hits = Raise e -> e = KeyError "signature".
Proof.
  induction hits as [|x hits IH]; simpl; [done|].
  unfold hit_signature at 1.
  destruct (s_signature (h_source x)); [|by intros [= <-]].
  destruct (comprehension hit_signature hits); [done|].
  intros [= <-]. by apply IH.
Qed.

Lemma attach_dists_short rows dists i :
  i <= length dists < i + length rows ->
  attach_dists rows dists i = Raise IndexError.
Proof.
  revert i. induction rows as [|r rows IH]; simpl; intros i L; [lia|].
  destruct (dists !! i) as [d|] eqn:D; [|done].
  rewrite IH; [done|]. apply lookup_lt_Some in D. lia.
Qed.

(** X1: the failures of [search_single_record].  A record without a
    path or without a signature is a [KeyError] raised before anything is
    asked of the index; a hit that carries no signature is a [KeyError]
    raised after the one search and before any distance is computed; and
    a distance function that gives fewer distances than there are hits is
    an [IndexError]. *)
Theorem search_single_record_failures self rec w :
  (dict_get "path" rec = None ->
   search_single_record self rec w = (Raise (KeyError "path"), w)) /\
  (forall p, dict_get "path" rec = Some p ->
     dict_get "signature" (dict_remove "path" rec) = None ->
     search_single_record self rec w = (Raise (KeyError "signature"), w)) /\
  (forall p signature,
     dict_get "path" rec = Some p ->
     dict_get "signature" (dict_remove "path" rec) = Some signature ->
     let req := words_request self (word_slots rec) in
     let hits := es_search_words (w_docs w) req in
     (forall x, In x hits -> s_signature (h_source x) = None ->
        search_single_record self rec w
        = (Raise (KeyError "signature"), logged w [EvSearchWords req])) /\
     (forall sigs,
        comprehension hit_signature hits = Ret sigs ->
        np_size sigs <> 0 ->
        length (normalized_distance sigs signature) < length hits ->
        search_single_record self rec w
        = (Raise IndexError,
           logged w [EvSearchWords req; EvDistance sigs signature]))).
Proof.
  split; [|split].
  - intros P. by rewrite search_single_record_run, P.
  - intros p P S. by rewrite search_single_record_run, P, S.
  - intros p signature P S req hits. split.
    + intros x Hin N. rewrite search_single_record_run, P, S. cbv zeta.
      fold req. fold hits.
      destruct (comprehension_raises hit_signature hits x
                  (KeyError "signature") Hin) as [e E].
      { unfold hit_signature. by rewrite N. }
      rewrite E. by apply comprehension_hit_signature_error in E as ->.
    + intros sigs C N L. rewrite search_single_record_run, P, S. cbv zeta.
      fold req. fold hits. rewrite C.
      destruct (Nat.eqb_spec (np_size sigs) 0) as [?|_]; [done|].
      rewrite attach_dists_short; [done|]. rewrite length_map. simpl. lia.
Qed.

Lemma attach_dists_rows hits dists i cands :
  attach_dists (List.map format_hit hits) dists i = Ret cands ->
  Forall2 (fun x y => y = format_hit x (m_dist y)) hits cands.
Proof.
  revert i cands. induction hits as [|x hits IH]; simpl; intros i cands.
  - intros [= <-]. constructor.
  - destruct (dists !! i); [|discriminate].
    destruct (attach_dists _ dists (S i)) as [rs|] eqn:R; [|discriminate].
    intros [= <-]. constructor; [done|]. by eapply IH.
Qed.

Lemma sublist_list_filter {A} (f : A -> bool) (l : list A) :
  sublist (List.filter f l) l.
Proof.
  induction l as [|x l IH]; simpl; [constructor|].
  destruct (f x); by constructor.
Qed.

Lemma sublist_map {A B} (f : A -> B) (l k : list A) :
  sublist l k -> sublist (List.map f l) (List.map f k).
Proof. induction 1; simpl; by constructor. Qed.

Lemma Forall2_In_r {A B} (R : A -> B -> Prop) l k y :
  Forall2 R l k -> In y k -> exists x, In x l /\ R x y.
Proof.
  induction 1 as [|x y' l k Rxy _ IH]; simpl; [done|].
  intros [->|Hin]; [eauto|].
  destruct (IH Hin) as (x' & ? & ?). eauto.
Qed.

Lemma Forall2_rows_ids hits (cands : list match_row) :
  Forall2 (fun x y => y = format_hit x (m_dist y)) hits cands ->
  List.map m_id cands = List.map h_id hits.
Proof.
  induction 1 as [|x y hits cands E _ IH]; simpl; [done|].
  rewrite IH. f_equal. by rewrite E.
Qed.

(** X2: re-ranking neither invents nor reorders candidates.  The rows
    that [search_single_record] hands back are rows of hits of its one
    search, each with the identifier, score, metadata and path of its
    hit; they come in the order of the hits and there are no more of them
    than hits. *)
Theorem search_single_record_rows_are_hits self rec w r w' :
  search_single_record self rec w = (Ret r, w') ->
  let hits := es_search_words (w_docs w)
                (words_request self (word_slots rec)) in
  sublist (List.map m_id (py_list r)) (List.map h_id hits) /\
  length (py_list r) <= length hits /\
  forall y, In y (py_list r) ->
    exists x, In x hits /\ y = format_hit x (m_dist y).
Proof.
  rewrite search_single_record_run. intros E hits.
  destruct (dict_get "path" rec); [|discriminate].
  destruct (dict_get "signature" _) as [signature|]; [|discriminate].
  cbv zeta in E. fold hits in E.
  destruct (comprehension hit_signature hits) as [sigs|]; [|discriminate].
  destruct (Nat.eqb (np_size sigs) 0).
  { injection E as <- <-. unfold py_list. simpl.
    split; [apply sublist_nil_l|]. split; [lia|]. intros y []. }
  destruct (attach_dists _ _ _) as [cands|] eqn:A; [|discriminate].
  injection E as <- <-. unfold py_list. simpl.
  apply attach_dists_rows in A.
  assert (S : sublist (List.filter
                         (fun y => flt (m_dist y) (distance_cutoff self)) cands)
                      cands) by apply sublist_list_filter.
  split; [|split].
  - rewrite <- (Forall2_rows_ids hits cands A). by apply sublist_map.
  - apply sublist_length in S. apply Forall2_length in A. lia.
  - intros y [Hin _]%filter_In.
    destruct (Forall2_In_r _ _ _ _ A Hin) as (x & Hx & E). eauto.
Qed.

Lemma dict_get_remove_ne k k' d :
  k <> k' -> dict_get k (dict_remove k' d) = dict_get k d.
Proof.
  intros Ne. induction d as [|[k0 v0] d IH]; simpl; [done|].
  destruct (String.eqb_spec k' k0) as [->|Ne'].
  - destruct (String.eqb_spec k k0); [done|done].
  - simpl. by rewrite IH.
Qed.

Lemma dict_remove_comm k k' d :
  dict_remove k (dict_remove k' d) = dict_remove k' (dict_remove k d).
Proof.
  induction d as [|[k0 v0] d IH]; simpl; [done|].
  destruct (String.eqb_spec k' k0) as [->|N1],
           (String.eqb_spec k k0) as [->|N2]; simpl;
    rewrite ?String.eqb_refl; try done.
  apply String.eqb_neq in N1, N2. by rewrite N1, N2, IH.
Qed.

Lemma dict_has_removed k d :
  NoDup (List.map fst d) -> dict_has k (dict_remove k d) = false.
Proof.
  unfold dict_has. induction d as [|[k0 v0] d IH]; simpl; [done|].
  intros [N' N]%NoDup_cons.
  destruct (String.eqb_spec k k0) as [->|Ne].
  - destruct (dict_get k0 d) as [v|] eqn:G; [|done]. exfalso. apply N'.
    clear -G. induction d as [|[k1 v1] d IH]; simpl in *; [done|].
    destruct (String.eqb_spec k0 k1) as [->|]; [left|right; by apply IH].
  - simpl. destruct (String.eqb_spec k k0); [done|]. by apply IH.
Qed.

(** X3: the metadata of the record plays no part in a search.  For a
    record with one binding per key, [search_single_record] does the same
    with and without its [metadata] binding, whatever its value. *)
Theorem search_single_record_ignores_metadata self rec w :
  NoDup (List.map fst rec) ->
  search_single_record self (dict_remove "metadata" rec) w
  = search_single_record self rec w.
Proof.
  intros N. rewrite !search_single_record_run.
  rewrite (dict_get_remove_ne "path" "metadata") by done.
  rewrite (dict_remove_comm "path" "metadata").
  rewrite (dict_get_remove_ne "signature" "metadata") by done.
  assert (W : word_slots (dict_remove "metadata" rec) = word_slots rec).
  { rewrite !word_slots_eq.
    rewrite (dict_remove_comm "path" "metadata").
    rewrite (dict_remove_comm "signature" "metadata").
    apply dict_remove_absent, dict_has_removed.
    by do 2 apply dict_remove_NoDup. }
  by rewrite W.
Qed.

Lemma np_size_zero sigs :
  np_size sigs = 0 <-> Forall (fun s => s = []) sigs.
Proof.
  destruct sigs as [|r rest]; simpl; [split; [constructor|done]|].
  destruct (forallb _ rest) eqn:F.
  - rewrite forallb_forall in F. split.
    + intros E. assert (R : r = []) by (destruct r; [done|simpl in E; lia]).
      subst r. constructor; [done|]. apply List.Forall_forall.
      intros s Hs. apply F, Nat.eqb_eq in Hs. by destruct s.
    + intros [-> _]%Forall_cons. simpl. lia.
  - split; [lia|]. intros [-> All]%Forall_cons. exfalso.
    assert (forallb (fun r' => Nat.eqb (length r') (length (@nil Z))) rest
            = true); [|congruence].
    apply forallb_forall. intros s Hs.
    rewrite List.Forall_forall in All. by rewrite (All s Hs).
Qed.

(** X4: when the short cut is taken.  With the signatures of the hits
    in hand, [search_single_record] returns the empty list without
    computing a distance exactly when no signature has any element: no
    hit at all, or hits whose stored signatures are all empty. *)
Theorem search_single_record_short_cut self rec w p signature sigs :
  dict_get "path" rec = Some p ->
  dict_get "signature" (dict_remove "path" rec) = Some signature ->
  let req := words_request self (word_slots rec) in
  comprehension hit_signature (es_search_words (w_docs w) req) = Ret sigs ->
  (Forall (fun s => s = []) sigs <->
   search_single_record self rec w
   = (Ret (PyList []), logged w [EvSearchWords req])).
Proof.
  intros P S req C. rewrite search_single_record_run, P, S. cbv zeta.
  fold req. rewrite C. rewrite <- np_size_zero.
  destruct (Nat.eqb_spec (np_size sigs) 0) as [Z|NZ]; [done|].
  split; [done|]. by destruct (attach_dists _ _ _).
Qed.

End MoreReRanking.

(** ** More on the index: what a delete and an add leave *)

Section MoreIndex.
Context `{Collaborators}.
Variable cfg : config.

(** X7: what [delete_handler] deletes.  On an index with unique
    identifiers the handler returns the success response, removes the
    records of the path that the lookup returned (the first default page
    of them) and leaves every record of another path, so that when the
    records of the path fit the page the index afterwards is the index
    without that path. *)
Theorem delete_handler_removes_a_page request path w o w' :
  ids_unique (w_docs w) ->
  rq_form request !! "filepath" = Some path ->
  delete_handler cfg request w = (o, w') ->
  o = Ret (ok "delete" []) /\
  List.filter (has_path path) (w_docs w')
  = drop default_size (List.filter (has_path path) (w_docs w)) /\
  List.filter (other_path path) (w_docs w')
  = List.filter (other_path path) (w_docs w) /\
  (length (List.filter (has_path path) (w_docs w)) <= default_size ->
   w_docs w' = List.filter (other_path path) (w_docs w)).
Proof.
  intros U P. rewrite delete_handler_run, P. cbv zeta. intros [= <- <-].
  simpl. split; [done|]. split; [by apply removed_under_path|].
  split; [by apply removed_others|].
  intros Fit. rewrite take_ge by done. rewrite remove_ids_filter.
  apply List.filter_ext_in. intros d Hd. unfold other_path.
  destruct (has_path path d) eqn:Pd.
  - by rewrite existsb_old_id.
  - pose proof (not_listed_other_path path (length (w_docs w)) (w_docs w)
                  d U Hd Pd) as N.
    rewrite take_ge in N; [by rewrite N|].
    clear. induction (w_docs w) as [|x l IH]; simpl; [done|].
    destruct (has_path path x); simpl; lia.
Qed.

(** X9: a malformed request is turned away before anything happens.  An
    add without [filepath], with metadata that is not JSON, or with
    neither a URL nor an upload raises with the world untouched: no upload
    read, no call to the index.  So does a delete without [filepath]. *)
Theorem malformed_requests_do_nothing request w :
  (rq_form request !! "filepath" = None ->
   add_handler cfg request w = (Raise (BadRequestKeyError "filepath"), w) /\
   delete_handler cfg request w
   = (Raise (BadRequestKeyError "filepath"), w)) /\
  (forall path s e,
     rq_form request !! "filepath" = Some path ->
     rq_form request !! "metadata" = Some s ->
     json_loads s = Raise e ->
     add_handler cfg request w = (Raise e, w)) /\
  (forall path metadata,
     rq_form request !! "filepath" = Some path ->
     metadata_of request = Ret metadata ->
     rq_form request !! "url" = None ->
     rq_files request !! "image" = None ->
     add_handler cfg request w = (Raise (BadRequestKeyError "image"), w)).
Proof.
  split; [|split].
  - intros P. by rewrite add_handler_run, delete_handler_run, P.
  - intros path s e P Md J. rewrite add_handler_run, P.
    unfold metadata_of. by rewrite Md, J.
  - intros path metadata P Md U F.
    by rewrite add_handler_run, P, Md, get_image_run, U, F.
Qed.

(** X10: what a successful add leaves in the index, page or no page.
    On an index with unique identifiers, after [add_handler] returns the
    records under the path are the old ones that the lookup did not
    return (those beyond the first default page) followed by the new
    record, and the records of every other path are as they were. *)
Theorem add_handler_touches_one_path request path w resp w' :
  (forall docs, ~ In (fresh_id docs) (List.map d_id docs)) ->
  ids_unique (w_docs w) ->
  rq_form request !! "filepath" = Some path ->
  add_handler cfg request w = (Ret resp, w') ->
  exists sig metadata words,
    let new := new_doc (w_docs w) path sig metadata words in
    List.filter (has_path path) (w_docs w')
    = (drop default_size (List.filter (has_path path) (w_docs w)) ++ [new])%list
    /\
    List.filter (other_path path) (w_docs w')
    = List.filter (other_path path) (w_docs w).
Proof.
  intros Fresh U P. rewrite add_handler_run, P.
  destruct (metadata_of request) as [metadata|]; [|done].
  destruct (get_image request "url" "image" w) as [[[img bs]|e1] w1] eqn:G;
    [|done].
  apply get_image_world in G as (D & _). rewrite D. cbv zeta.
  destruct (make_record img bs) as [[sig words]|]; [|done].
  intros [= <- <-]. exists sig, (stored_metadata metadata), words. simpl.
  rewrite remove_ids_app_new.
  2:{ intros Hin. apply (Fresh (w_docs w)). by eapply taken_ids_stored. }
  rewrite !List.filter_app, removed_under_path, removed_others by done.
  simpl. unfold other_path, has_path. simpl. rewrite String.eqb_refl.
  simpl. by rewrite app_nil_r.
Qed.

(** X11: the handlers keep the identifiers of the index unique, given an
    engine that assigns an identifier not yet stored. *)
Theorem handlers_keep_ids_unique request w :
  ids_unique (w_docs w) ->
  ids_unique (w_docs (snd (delete_handler cfg request w))) /\
  ((forall docs, ~ In (fresh_id docs) (List.map d_id docs)) ->
   ids_unique (w_docs (snd (add_handler cfg request w)))).
Proof.
  intros U. split.
  - rewrite delete_handler_run.
    destruct (rq_form request !! "filepath"); [|done]. simpl.
    rewrite remove_ids_filter. by apply ids_unique_filter.
  - intros Fresh. rewrite add_handler_run.
    destruct (rq_form request !! "filepath") as [path|]; [|done].
    destruct (metadata_of request) as [metadata|]; [|done].
    destruct (get_image request "url" "image" w) as [[[img bs]|e1] w1] eqn:G;
      apply get_image_world in G as (D & _); [|simpl; by rewrite D].
    cbv zeta. destruct (make_record img bs) as [[sig words]|];
      [|simpl; by rewrite D].
    simpl. rewrite remove_ids_filter. apply ids_unique_filter.
    rewrite D. unfold ids_unique. rewrite map_app. simpl.
    apply NoDup_app. split; [done|]. split.
    + intros i Hi [->|[]%elem_of_nil]%elem_of_cons.
      apply (Fresh (w_docs w)). by apply list_elem_of_In.
    + apply NoDup_singleton.
Qed.

End MoreIndex.

(** ** Adds followed by counts and listings *)

Section AddThenRead.
Context `{Collaborators}.
Variable cfg : config.

Lemma count_handler_run request w :
  count_handler cfg request w
  = (Ret (ok "count" [RCount (length (w_docs w))]),
     logged w [EvCount (es_index cfg)]).
Proof. reflexivity. Qed.

(** The index after an add that returned. *)
Lemma add_handler_docs request path w resp w' :
  rq_form request !! "filepath" = Some path ->
  add_handler cfg request w = (Ret resp, w') ->
  exists sig metadata words,
    w_docs w'
    = remove_ids
        (List.map d_id
           (take default_size (List.filter (has_path path) (w_docs w))))
        (w_docs w ++ [new_doc (w_docs w) path sig metadata words]).
Proof.
  intros P. rewrite add_handler_run, P.
  destruct (metadata_of request) as [metadata|]; [|done].
  destruct (get_image request "url" "image" w) as [[[img bs]|e1] w1] eqn:G;
    [|done].
  apply get_image_world in G as (D & _). rewrite D. cbv zeta.
  destruct (make_record img bs) as [[sig words]|]; [|done].
  intros [= <- <-]. by exists sig, (stored_metadata metadata), words.
Qed.

Lemma filter_split_length {A} (f : A -> bool) (l : list A) :
  length (List.filter f l) + length (List.filter (fun x => negb (f x)) l)
  = length l.
Proof.
  induction l as [|x l IH]; simpl; [done|].
  destruct (f x); simpl; lia.
Qed.

(** X14: an add followed by a count.  On an index with unique
    identifiers, the count reported after an add that returned is the
    count before plus one for the new record, less the old records of the
    path that the lookup returned (all of them up to the default page). *)
Theorem add_then_count request path w resp w' request' :
  (forall docs, ~ In (fresh_id docs) (List.map d_id docs)) ->
  ids_unique (w_docs w) ->
  rq_form request !! "filepath" = Some path ->
  add_handler cfg request w = (Ret resp, w') ->
  exists count,
    count_handler cfg request' w'
    = (Ret (ok "count" [RCount count]), logged w' [EvCount (es_index cfg)]) /\
    count + Nat.min default_size
              (length (List.filter (has_path path) (w_docs w)))
    = S (length (w_docs w)).
Proof.
  intros Fresh U P E. rewrite count_handler_run. eexists.
  split; [reflexivity|].
  destruct (add_handler_docs request path w resp w' P E)
    as (sig & metadata & words & ->).
  rewrite remove_ids_app_new.
  2:{ intros Hin. apply (Fresh (w_docs w)). by eapply taken_ids_stored. }
  rewrite length_app. simpl.
  set (docs' := remove_ids _ (w_docs w)).
  pose proof (filter_split_length (has_path path) docs') as S'.
  pose proof (filter_split_length (has_path path) (w_docs w)) as S.
  unfold docs' in S'. rewrite removed_under_path in S' by done.
  fold (other_path path) in S', S. rewrite removed_others in S' by done.
  rewrite length_drop in S'. fold docs' in S'. lia.
Qed.

Lemma filter_paths path (docs : list doc) :
  List.filter (fun q => String.eqb q path) (List.map d_path docs)
  = List.map d_path (List.filter (has_path path) docs).
Proof.
  induction docs as [|d docs IH]; simpl; [done|].
  unfold has_path at 1. destruct (String.eqb (d_path d) path); simpl;
    by rewrite IH.
Qed.

(** X15: an add followed by a listing.  After an add that returned, on
    an index whose records under the path fitted the default page, a page
    that covers the whole index lists the path exactly once; so adding a
    path again replaces its entry instead of repeating it. *)
Theorem add_then_list request path w resp w' limit :
  (forall docs, ~ In (fresh_id docs) (List.map d_id docs)) ->
  length (List.filter (has_path path) (w_docs w)) <= default_size ->
  rq_form request !! "filepath" = Some path ->
  add_handler cfg request w = (Ret resp, w') ->
  (Z.of_nat (length (w_docs w')) <= limit)%Z ->
  exists paths,
    paths_at_location cfg 0 limit w'
    = (Ret paths, logged w' [EvSearchPage (es_index cfg) 0 limit]) /\
    length (List.filter (fun q => String.eqb q path) paths) = 1.
Proof.
  intros Fresh Fit P E L. rewrite paths_at_location_run. eexists.
  split; [reflexivity|]. simpl. rewrite drop_0, take_ge by lia.
  rewrite filter_paths.
  destruct (add_handler_docs request path w resp w' P E)
    as (sig & metadata & words & ->).
  rewrite take_ge by done. rewrite replaced_path; [done|done|apply Fresh].
Qed.

End AddThenRead.

(** ** Listing, comparing, and the calls that only read *)

Section Reads.
Context `{Collaborators}.
Variable cfg : config.

(** X16: the size of a listing.  A [/list] request that returns lists
    stored paths only, no more of them than the limit it read (20 when the
    request names none) and no more than the index holds beyond the
    offset; an offset at or past the end of the index lists nothing. *)
Theorem list_handler_bounds request w resp w' :
  list_handler cfg request w = (Ret resp, w') ->
  exists offset limit,
    int_of_param (list_params request) "offset" 0 = Ret offset /\
    int_of_param (list_params request) "limit" 20 = Ret limit /\
    length (result resp) <= Z.to_nat (Z.max limit 0) /\
    length (result resp) <= length (w_docs w) - Z.to_nat (Z.max offset 0) /\
    (list_params request !! "limit" = None -> length (result resp) <= 20) /\
    (Z.of_nat (length (w_docs w)) <= offset -> result resp = [])%Z /\
    (forall item, In item (result resp) ->
       exists d, In d (w_docs w) /\ item = RPath (d_path d)).
Proof.
  rewrite list_handler_run.
  destruct (int_of_param _ "offset" 0) as [offset|] eqn:O; [|done].
  destruct (int_of_param _ "limit" 20) as [limit|] eqn:L; [|done].
  cbv zeta. intros [= <- <-]. exists offset, limit. simpl.
  rewrite !length_map, length_take, length_drop.
  split; [done|]. split; [done|]. split; [lia|]. split; [lia|].
  split; [|split].
  - intros N. unfold int_of_param in L. rewrite N in L.
    injection L as <-. replace (Z.to_nat (Z.max 20 0)) with 20 by lia. lia.
  - intros Past. rewrite drop_ge by lia. by rewrite take_nil.
  - intros item (p & <- & (d & <- & Hd)%in_map_iff)%in_map_iff.
    exists d. split; [|done]. apply list_elem_of_In.
    apply list_elem_of_In, subseteq_take, subseteq_drop in Hd. done.
Qed.

(** X17: where a listing takes its parameters.  A GET reads [offset] and
    [limit] from the query string and nothing from the form; any other
    method reads them from the form and nothing from the query string;
    uploads are never looked at. *)
Theorem list_handler_parameter_source request w :
  (rq_method request = GET ->
   forall form,
     list_handler cfg (with_form request form) w = list_handler cfg request w)
  /\
  (rq_method request <> GET ->
   forall args,
     list_handler cfg (with_args request args) w = list_handler cfg request w)
  /\
  (forall files,
     list_handler cfg (with_files request files) w
     = list_handler cfg request w).
Proof.
  split; [|split].
  - intros G form. rewrite !list_handler_run. unfold list_params. simpl.
    by rewrite G.
  - intros G args. rewrite !list_handler_run. unfold list_params. simpl.
    by destruct (rq_method request).
  - intros files. by rewrite !list_handler_run.
Qed.

(** X19: [compare_handler] reads both images before it computes anything
    and never goes to the index.  Its calls are reads of uploads followed
    by signature generations, two of them when it returns; when the second
    image is missing it raises without having generated a signature. *)
Theorem compare_handler_reads_first request w o w' :
  compare_handler request w = (o, w') ->
  w_docs w' = w_docs w /\
  exists reads generations,
    w_log w' = (w_log w ++ reads ++ generations)%list /\
    List.filter (fun e => negb (is_file_read e)) reads = [] /\
    List.filter (fun e => negb (is_generate_signature e)) generations = [] /\
    (forall resp, o = Ret resp -> length generations = 2) /\
    (rq_form request !! "url2" = None ->
     rq_files request !! "image2" = None ->
     generations = [] /\ exists key, o = Raise (BadRequestKeyError key)).
Proof.
  rewrite compare_handler_run.
  destruct (get_image request "url1" "image1" w)
    as [[[img1 bs1]|e1] w1] eqn:G1.
  2:{ pose proof G1 as G. apply get_image_world in G as (D & reads & L & R).
      intros [= <- <-]. split; [done|]. exists reads, [].
      rewrite app_nil_r. split; [done|].
      split; [by destruct R as [->| ->]|]. split; [done|].
      split; [done|]. intros _ _. split; [done|].
      rewrite get_image_run in G1.
      destruct (rq_form request !! "url1"); [done|].
      destruct (rq_files request !! "image1"); [done|].
      injection G1 as <- _. eauto. }
  apply get_image_world in G1 as (D1 & reads1 & L1 & R1).
  destruct (get_image request "url2" "image2" w1)
    as [[[img2 bs2]|e2] w2] eqn:G2.
  2:{ pose proof G2 as G. apply get_image_world in G as (D & reads & L & R).
      intros [= <- <-]. split; [congruence|]. exists (reads1 ++ reads)%list, [].
      rewrite app_nil_r, L, L1, <- app_assoc. split; [done|].
      split; [by destruct R1 as [->| ->], R as [->| ->]|].
      split; [done|]. split; [done|]. intros _ _. split; [done|].
      rewrite get_image_run in G2.
      destruct (rq_form request !! "url2"); [done|].
      destruct (rq_files request !! "image2"); [done|].
      injection G2 as <- _. eauto. }
  pose proof G2 as G. apply get_image_world in G as (D2 & reads2 & L2 & R2).
  assert (Reads : List.filter (fun e => negb (is_file_read e))
                    (reads1 ++ reads2) = []).
  { by destruct R1 as [->| ->], R2 as [->| ->]. }
  assert (Present : rq_form request !! "url2" = None ->
                    rq_files request !! "image2" = None -> False).
  { intros U F. by rewrite get_image_run, U, F in G2. }
  destruct (generate_signature img1 bs1) as [sig1|].
  - cbv zeta. destruct (generate_signature img2 bs2) as [sig2|];
      intros [= <- <-]; (split; [simpl; congruence|]);
      exists (reads1 ++ reads2)%list,
             [EvGenerateSignature img1 bs1; EvGenerateSignature img2 bs2];
      simpl; rewrite L2, L1, <- !app_assoc;
      (split; [done|]); (split; [done|]); (split; [done|]);
      (split; [done|]); intros U F; by destruct (Present U F).
  - intros [= <- <-]. split; [simpl; congruence|].
    exists (reads1 ++ reads2)%list, [EvGenerateSignature img1 bs1].
    simpl. rewrite L2, L1, <- !app_assoc.
    split; [done|]. split; [done|]. split; [done|]. split; [done|].
    intros U F. by destruct (Present U F).
Qed.

Lemma search_handler_reads request w :
  w_docs (snd (search_handler cfg request w)) = w_docs w.
Proof.
  rewrite search_handler_run.
  destruct (get_image request "url" "image" w) as [[[img bs]|e] w1] eqn:G;
    apply get_image_world in G as (D & _); [|done].
  cbv zeta. by destruct (search_image _ _ _ _).
Qed.

Lemma compare_handler_reads request w :
  w_docs (snd (compare_handler request w)) = w_docs w.
Proof.
  rewrite compare_handler_run.
  destruct (get_image request "url1" "image1" w)
    as [[[img1 bs1]|e1] w1] eqn:G1;
    apply get_image_world in G1 as (D1 & _); [|done].
  destruct (get_image request "url2" "image2" w1)
    as [[[img2 bs2]|e2] w2] eqn:G2;
    apply get_image_world in G2 as (D2 & _); [|simpl; congruence].
  destruct (generate_signature img1 bs1); [|simpl; congruence].
  cbv zeta. destruct (generate_signature img2 bs2); simpl; congruence.
Qed.

Lemma list_handler_reads request w :
  w_docs (snd (list_handler cfg request w)) = w_docs w.
Proof.
  rewrite list_handler_run.
  destruct (int_of_param _ "offset" 0); [|done].
  by destruct (int_of_param _ "limit" 20).
Qed.

(** X20: the calls that only read.  Searching, comparing, counting,
    listing and pinging leave every record of the index in place, whatever
    the request and whether they return or raise; so do
    [search_single_record] and the lookups [ids_with_path],
    [paths_at_location] and [count_images].  A ping makes no call at
    all. *)
Theorem reads_leave_the_index_alone request w :
  w_docs (snd (search_handler cfg request w)) = w_docs w /\
  w_docs (snd (compare_handler request w)) = w_docs w /\
  w_docs (snd (count_handler cfg request w)) = w_docs w /\
  w_docs (snd (list_handler cfg request w)) = w_docs w /\
  ping_handler request w = (Ret (ok "ping" []), w) /\
  (forall self rec,
     w_docs (snd (search_single_record self rec w)) = w_docs w) /\
  (forall path, w_docs (snd (ids_with_path cfg path w)) = w_docs w) /\
  (forall offset limit,
     w_docs (snd (paths_at_location cfg offset limit w)) = w_docs w) /\
  w_docs (snd (count_images cfg w)) = w_docs w.
Proof.
  split; [apply search_handler_reads|].
  split; [apply compare_handler_reads|]. split; [done|].
  split; [apply list_handler_reads|]. split; [done|].
  split; [|done].
  intros self rec. rewrite search_single_record_run.
  destruct (dict_get "path" rec); [|done].
  destruct (dict_get "signature" _); [|done]. cbv zeta.
  destruct (comprehension hit_signature _) as [sigs|]; [|done].
  destruct (Nat.eqb (np_size sigs) 0); [done|].
  by destruct (attach_dists _ _ _).
Qed.

End Reads.

(** ** The application as a whole *)

Section WholeApplication.
Context `{Collaborators}.
Variable cfg : config.
Variable str_error : exn -> string.

Lemma find_rule_cases url methods view :
  find_rule url (url_map cfg) = Some (methods, view) ->
  (url = "/add" /\ methods = [POST] /\ view = add_handler cfg) \/
  (url = "/delete" /\ methods = [DELETE] /\ view = delete_handler cfg) \/
  (url = "/search" /\ methods = [POST] /\ view = search_handler cfg) \/
  (url = "/compare" /\ methods = [POST] /\ view = compare_handler) \/
  (url = "/count" /\ methods = [GET; POST] /\ view = count_handler cfg) \/
  (url = "/list" /\ methods = [GET; POST] /\ view = list_handler cfg) \/
  (url = "/ping" /\ methods = [GET; POST] /\ view = ping_handler).
Proof.
  unfold url_map. simpl.
  repeat (destruct (String.eqb url _) eqn:U;
          [apply String.eqb_eq in U as ->; intros [= <- <-]; auto 12|
           clear U]).
  done.
Qed.

Lemma views_answer_ok url methods view request w body w' :
  find_rule url (url_map cfg) = Some (methods, view) ->
  view request w = (Ret body, w') ->
  status body = "ok" /\ error body = [].
Proof.
  intros [(_ & _ & ->)|[(_ & _ & ->)|[(_ & _ & ->)|[(_ & _ & ->)|
          [(_ & _ & ->)|[(_ & _ & ->)|(_ & _ & ->)]]]]]]%find_rule_cases.
  - rewrite add_handler_run. cbv zeta.
    repeat case_match; intros E; by simplify_eq.
  - rewrite delete_handler_run. cbv zeta.
    repeat case_match; intros E; by simplify_eq.
  - rewrite search_handler_run. cbv zeta.
    repeat case_match; intros E; by simplify_eq.
  - rewrite compare_handler_run. cbv zeta.
    repeat case_match; intros E; by simplify_eq.
  - by intros [= <- <-].
  - rewrite list_handler_run. cbv zeta.
    repeat case_match; intros E; by simplify_eq.
  - by intros [= <- <-].
Qed.

Lemma http_method_eqb_eq a b : http_method_eqb a b = true <-> a = b.
Proof.
  split; [|intros <-; destruct a; simpl; [done..|apply String.eqb_refl]].
  destruct a, b; simpl; try done. by intros ->%String.eqb_eq.
Qed.

Lemma send_code meth a : snd (send meth a) = snd a.
Proof. by destruct meth. Qed.

Lemma view_answer_world view request w :
  snd (view_answer str_error view request w) = snd (view request w) /\
  let code := snd (fst (view_answer str_error view request w)) in
  (code = 200 \/ code = 400 \/ code = 500)%Z.
Proof.
  unfold view_answer. destruct (view request w) as [[body|[]] w']; simpl;
    rewrite send_code; simpl; auto.
Qed.

(** A request runs the view of its rule, or none. *)
Lemma dispatch_cases url request w :
  let meth := rq_method request in
  (find_rule url (url_map cfg) = None /\
   dispatch cfg str_error url request w = (send meth page_not_found, w)) \/
  (exists methods view,
     find_rule url (url_map cfg) = Some (methods, view) /\
     ((meth = OPTIONS /\
       dispatch cfg str_error url request w = ((None, 200%Z), w)) \/
      (meth <> OPTIONS /\ accepts methods meth = false /\
       dispatch cfg str_error url request w
       = (send meth method_not_allowed, w)) \/
      (meth <> OPTIONS /\ accepts methods meth = true /\
       dispatch cfg str_error url request w = view_answer str_error view request w))).
Proof.
  cbv zeta. unfold dispatch.
  destruct (find_rule url (url_map cfg)) as [[methods view]|]; [|by left].
  right. exists methods, view. split; [done|].
  destruct (http_method_eqb (rq_method request) OPTIONS) eqn:O.
  { apply http_method_eqb_eq in O. by left. }
  assert (rq_method request <> OPTIONS).
  { intros E%http_method_eqb_eq. congruence. }
  right. destruct (accepts methods (rq_method request)); [right|left]; done.
Qed.

Lemma accepts_post meth : accepts [POST] meth = true -> meth = POST.
Proof. by destruct meth. Qed.

Lemma accepts_delete meth : accepts [DELETE] meth = true -> meth = DELETE.
Proof. by destruct meth. Qed.

(** X21: which requests can change the index.  A request changes the
    records of the index only if it is a POST to [/add] or a DELETE to
    [/delete]; a GET never does; and a request answered with status 404 or
    405 has run no view: the world is as it was. *)
Theorem only_add_and_delete_write url request w :
  let answer := dispatch cfg str_error url request w in
  (w_docs (snd answer) <> w_docs w ->
   (url = "/add" /\ rq_method request = POST) \/
   (url = "/delete" /\ rq_method request = DELETE)) /\
  (rq_method request = GET -> w_docs (snd answer) = w_docs w) /\
  (snd (fst answer) = 404%Z \/ snd (fst answer) = 405%Z -> snd answer = w).
Proof.
  cbv zeta.
  destruct (dispatch_cases url request w)
    as [(_ & ->)|(methods & view & F & [(_ & ->)|[(_ & _ & ->)|(_ & A & ->)]])];
    try (simpl; split; [done|]; split; done).
  destruct (view_answer_world view request w) as [-> Code]. cbv zeta in Code.
  split; [|split]; [| |lia].
  - intros Changed.
    apply find_rule_cases in F
      as [(-> & -> & ->)|[(-> & -> & ->)|[(_ & _ & ->)|[(_ & _ & ->)|
          [(_ & _ & ->)|[(_ & _ & ->)|(_ & _ & ->)]]]]]].
    + left. split; [done|]. by apply accepts_post.
    + right. split; [done|]. by apply accepts_delete.
    + by rewrite search_handler_reads in Changed.
    + by rewrite compare_handler_reads in Changed.
    + done.
    + by rewrite list_handler_reads in Changed.
    + done.
  - intros G. rewrite G in A.
    apply find_rule_cases in F
      as [(_ & -> & _)|[(_ & -> & _)|[(_ & -> & _)|[(_ & -> & _)|
          [(_ & _ & ->)|[(_ & _ & ->)|(_ & _ & ->)]]]]]]; try done.
    apply list_handler_reads.
Qed.

Lemma send_agrees meth (a : response * Z) :
  well_formed_answer a ->
  let code := snd (send meth a) in
  (code = 200 \/ code = 400 \/ code = 404 \/ code = 405 \/ code = 500)%Z /\
  (fst (send meth a) = None <-> meth = HEAD) /\
  (forall body, fst (send meth a) = Some body ->
     (code = 200%Z <-> status body = "ok") /\
     (code <> 200%Z <->
      status body = "fail" /\ length (error body) = 1 /\ result body = [] /\
      method body = "") /\
     (status body = "ok" -> error body = [])).
Proof.
  intros WF. cbv zeta. rewrite send_code. unfold well_formed_answer in WF.
  split; [destruct WF as [(-> & _)|(_ & _ & C)]; lia|].
  split; [destruct meth; simpl; split; done|].
  intros body B.
  assert (body = fst a) as -> by (destruct meth; simpl in B; congruence).
  destruct a as [b c]. simpl in *.
  destruct WF as [(-> & S & E)|(text & -> & C)]; simpl in *.
  - rewrite S, E. split; [done|]. split; [|done]. split; [done|].
    by intros [? _].
  - split; [split; [lia|done]|]. split; [|done]. split; [done|lia].
Qed.

Lemma view_answer_well_formed url methods view request w :
  find_rule url (url_map cfg) = Some (methods, view) ->
  exists a w',
    view_answer str_error view request w = (send (rq_method request) a, w') /\
    well_formed_answer a.
Proof.
  intros F. unfold view_answer.
  destruct (view request w) as [[body|e] w'] eqn:V.
  - eexists _, _. split; [reflexivity|]. left. simpl. split; [done|].
    by eapply views_answer_ok.
  - destruct e; eexists _, _; (split; [reflexivity|]); right; simpl; eauto 10.
Qed.

(** X22: the body and the status code agree.  The status code of every
    answer is one of 200, 400, 404, 405 and 500.  No body is sent to a
    HEAD request, nor to an OPTIONS request for a path that has a rule,
    which is answered with status 200 without running a view; every other
    request is sent a body.  A body that is sent has the [status] "ok" and
    an empty [error] list exactly when the code is 200, and otherwise the
    [status] "fail", one entry in [error], no [result] and no [method]. *)
Theorem body_and_code_agree url request w :
  let sent := fst (fst (dispatch cfg str_error url request w)) in
  let code := snd (fst (dispatch cfg str_error url request w)) in
  (code = 200 \/ code = 400 \/ code = 404 \/ code = 405 \/ code = 500)%Z /\
  (sent = None <->
   rq_method request = HEAD \/
   (rq_method request = OPTIONS /\ find_rule url (url_map cfg) <> None)) /\
  (rq_method request = OPTIONS -> find_rule url (url_map cfg) <> None ->
   code = 200%Z /\ snd (dispatch cfg str_error url request w) = w) /\
  (forall body, sent = Some body ->
     (code = 200%Z <-> status body = "ok") /\
     (code <> 200%Z <->
      status body = "fail" /\ length (error body) = 1 /\ result body = [] /\
      method body = "") /\
     (status body = "ok" -> error body = [])).
Proof.
  cbv zeta.
  assert (Sent : forall (a : response * Z) w',
            well_formed_answer a ->
            (rq_method request = OPTIONS ->
             find_rule url (url_map cfg) <> None -> False) ->
            dispatch cfg str_error url request w
            = (send (rq_method request) a, w') ->
            let sent := fst (fst (dispatch cfg str_error url request w)) in
            let code := snd (fst (dispatch cfg str_error url request w)) in
            (code = 200 \/ code = 400 \/ code = 404 \/ code = 405 \/
             code = 500)%Z /\
            (sent = None <->
             rq_method request = HEAD \/
             (rq_method request = OPTIONS /\
              find_rule url (url_map cfg) <> None)) /\
            (rq_method request = OPTIONS ->
             find_rule url (url_map cfg) <> None ->
             code = 200%Z /\ snd (dispatch cfg str_error url request w) = w) /\
            (forall body, sent = Some body ->
               (code = 200%Z <-> status body = "ok") /\
               (code <> 200%Z <->
                status body = "fail" /\ length (error body) = 1 /\
                result body = [] /\ method body = "") /\
               (status body = "ok" -> error body = []))).
  { intros a w' WF NO ->. cbv zeta. cbn [fst snd].
    destruct (send_agrees (rq_method request) a WF) as (C & N & B).
    split; [exact C|]. split; [|split; [|exact B]].
    - rewrite N. split; [by left|]. intros [?|[? ?]]; [done|].
      by destruct NO.
    - intros ? ?. by destruct NO. }
  destruct (dispatch_cases url request w)
    as [(F & E)|(methods & view & F &
                 [(O & E)|[(NO & _ & E)|(NO & _ & E)]])].
  - refine (Sent page_not_found w _ (fun _ N => N F) E).
    right. exists "not found". simpl. auto 10.
  - rewrite E. cbn [fst snd]. split; [lia|]. split; [|split; [done|done]].
    split; [intros _; right; split; [done|by rewrite F]|done].
  - refine (Sent method_not_allowed w _ (fun O _ => NO O) E).
    right. exists "method not allowed". simpl. auto 10.
  - destruct (view_answer_well_formed url methods view request w F)
      as (a & w' & V & WF).
    rewrite V in E. exact (Sent a w' WF (fun O _ => NO O) E).
Qed.

End WholeApplication.

(** *** The further properties on the demo index *)

Module FurtherExamples.
Import Demo Fixtures.

Lemma demo_ids_unique : ids_unique (w_docs w0).
Proof.
  unfold ids_unique. simpl.
  repeat (apply NoDup_cons; split; [intros E; vm_compute in E|]).
  all: try apply NoDup_nil_2.
  all: repeat (apply elem_of_cons in E as [E|E]; [discriminate|]).
  all: by apply elem_of_nil in E.
Qed.

Lemma demo_one_per_path : one_per_path (w_docs w0).
Proof.
  intros path. unfold w0, docs, has_path, mk_doc.
  cbn [w_docs List.filter d_path].
  destruct (String.eqb_spec "a.jpg" path) as [<-|_]; [vm_compute; lia|].
  destruct (String.eqb_spec "b.jpg" path) as [<-|_]; [vm_compute; lia|].
  destruct (String.eqb_spec "c.jpg" path) as [<-|_]; [vm_compute; lia|].
  simpl. lia.
Qed.

Lemma demo_rec_keys : NoDup (List.map fst rec).
Proof.
  simpl. repeat (apply NoDup_cons; split; [intros E; vm_compute in E|]).
  all: try apply NoDup_nil_2.
  all: repeat (apply elem_of_cons in E as [E|E]; [discriminate|]).
  all: by apply elem_of_nil in E.
Qed.

Lemma search_single_record_failures_witness :
  search_single_record ses rec_without_path w0 = (Raise (KeyError "path"), w0).
Proof.
  refine (proj1 (search_single_record_failures ses rec_without_path w0) _).
  vm_compute; reflexivity.
Defined.

Lemma search_single_record_rows_are_hits_witness :
  length (py_list demo_result)
  <= length (es_search_words (w_docs w0)
               (words_request ses (word_slots rec))).
Proof.
  exact (proj1 (proj2 (search_single_record_rows_are_hits ses rec w0
                         demo_result demo_world ReRankingExamples.demo_run))).
Defined.

Lemma search_single_record_ignores_metadata_witness :
  search_single_record ses (dict_remove "metadata" rec) w0
  = search_single_record ses rec w0.
Proof.
  exact (search_single_record_ignores_metadata ses rec w0 demo_rec_keys).
Defined.

Lemma search_single_record_short_cut_witness :
  Forall (fun s : list Z => s = []) [] <->
  search_single_record ses rec empty
  = (Ret (PyList []),
     logged empty [EvSearchWords (words_request ses (word_slots rec))]).
Proof.
  refine (search_single_record_short_cut ses rec empty (VStr "q.jpg")
            (VList [1; 2]%Z) [] _ _ _); vm_compute; reflexivity.
Defined.

Lemma delete_handler_removes_a_page_witness :
  List.map d_id (w_docs (snd (delete_handler cfg delete_a w0))) = [2; 3] /\
  w_docs (snd (delete_handler cfg delete_a w0))
  = List.filter (other_path "a.jpg") (w_docs w0).
Proof.
  split; [vm_compute; reflexivity|].
  refine (proj2 (proj2 (proj2
            (delete_handler_removes_a_page cfg delete_a "a.jpg" w0
               (fst (delete_handler cfg delete_a w0))
               (snd (delete_handler cfg delete_a w0))
               demo_ids_unique _ _))) _).
  - vm_compute; reflexivity.
  - apply surjective_pairing.
  - vm_compute; lia.
Defined.

Lemma malformed_requests_do_nothing_witness :
  add_handler cfg add_without_image w0
  = (Raise (BadRequestKeyError "image"), w0).
Proof.
  refine (proj2 (proj2 (malformed_requests_do_nothing cfg add_without_image
                          w0)) "a.jpg" None _ _ _ _); vm_compute; reflexivity.
Defined.

Lemma add_handler_touches_one_path_witness :
  List.filter (other_path "a.jpg") (w_docs (snd (add_handler cfg readd w0)))
  = List.filter (other_path "a.jpg") (w_docs w0).
Proof.
  destruct (add_handler_touches_one_path cfg readd "a.jpg" w0
              (ok "add" []) (snd (add_handler cfg readd w0))
              RouteExamples.demo_fresh demo_ids_unique)
    as (sig & metadata & words & _ & Others).
  - vm_compute; reflexivity.
  - vm_compute; reflexivity.
  - exact Others.
Defined.

Lemma handlers_keep_ids_unique_witness :
  ids_unique (w_docs (snd (delete_handler cfg delete_a w0))) /\
  ids_unique (w_docs (snd (add_handler cfg readd w0))).
Proof.
  destruct (handlers_keep_ids_unique cfg delete_a w0 demo_ids_unique)
    as [D _].
  destruct (handlers_keep_ids_unique cfg readd w0 demo_ids_unique)
    as [_ A].
  split; [exact D|exact (A RouteExamples.demo_fresh)].
Defined.

Lemma add_handler_one_per_path_witness :
  exists w',
    add_handler cfg readd w0 = (Ret (ok "add" []), w') /\
    one_per_path (w_docs w').
Proof.
  eexists. split; [vm_compute; reflexivity|].
  refine (add_handler_one_per_path cfg readd w0 (ok "add" []) _
            RouteExamples.demo_fresh _ demo_one_per_path _).
  - vm_compute; lia.
  - vm_compute; reflexivity.
Defined.

Lemma delete_handler_one_per_path_witness :
  one_per_path (w_docs (snd (delete_handler cfg delete_a w0))).
Proof.
  refine (delete_handler_one_per_path cfg delete_a w0
            (fst (delete_handler cfg delete_a w0))
            (snd (delete_handler cfg delete_a w0)) demo_one_per_path _).
  apply surjective_pairing.
Defined.

(** Three records, one of them under "a.jpg": after the add, three. *)
Lemma add_then_count_witness :
  exists count,
    count_handler cfg (get []) (snd (add_handler cfg readd w0))
    = (Ret (ok "count" [RCount count]),
       logged (snd (add_handler cfg readd w0)) [EvCount (es_index cfg)]) /\
    count + Nat.min default_size
              (length (List.filter (has_path "a.jpg") (w_docs w0)))
    = S (length (w_docs w0)).
Proof.
  refine (add_then_count cfg readd "a.jpg" w0 (ok "add" [])
            (snd (add_handler cfg readd w0)) (get [])
            RouteExamples.demo_fresh demo_ids_unique _ _); vm_compute; reflexivity.
Defined.

Lemma add_then_list_witness :
  exists paths,
    paths_at_location cfg 0 100 (snd (add_handler cfg readd w0))
    = (Ret paths,
       logged (snd (add_handler cfg readd w0))
         [EvSearchPage (es_index cfg) 0 100]) /\
    length (List.filter (fun q => String.eqb q "a.jpg") paths) = 1.
Proof.
  refine (add_then_list cfg readd "a.jpg" w0 (ok "add" [])
            (snd (add_handler cfg readd w0)) 100 RouteExamples.demo_fresh _ _ _ _).
  - vm_compute; lia.
  - vm_compute; reflexivity.
  - vm_compute; reflexivity.
  - vm_compute; discriminate.
Defined.

Lemma list_handler_bounds_witness :
  exists resp,
    list_handler cfg list_second w0
    = (Ret resp, logged w0 [EvSearchPage (es_index cfg) 1 1]) /\
    result resp = [RPath "b.jpg"] /\
    exists offset limit,
      int_of_param (list_params list_second) "offset" 0 = Ret offset /\
      int_of_param (list_params list_second) "limit" 20 = Ret limit /\
      length (result resp) <= Z.to_nat (Z.max limit 0).
Proof.
  eexists. split; [vm_compute; reflexivity|]. split; [reflexivity|].
  destruct (list_handler_bounds cfg list_second w0
              (ok "list" [RPath "b.jpg"])
              (logged w0 [EvSearchPage (es_index cfg) 1 1]))
    as (offset & limit & O & L & B & _).
  - vm_compute; reflexivity.
  - by exists offset, limit.
Defined.

Lemma compare_handler_reads_first_witness :
  exists reads generations,
    w_log (snd (compare_handler compare_one w0))
    = (w_log w0 ++ reads ++ generations)%list /\
    generations = [] /\
    exists key,
      fst (compare_handler compare_one w0) = Raise (BadRequestKeyError key).
Proof.
  destruct (compare_handler_reads_first compare_one w0
              (fst (compare_handler compare_one w0))
              (snd (compare_handler compare_one w0)))
    as (_ & reads & generations & L & _ & _ & _ & Missing).
  - apply surjective_pairing.
  - exists reads, generations. split; [exact L|].
    apply Missing; vm_compute; reflexivity.
Defined.

(** An OPTIONS request to [/add] and a HEAD request to [/count] are
    answered with status 200 and no body, the first without running the
    view; a PUT to [/add] is status 405; a GET of [/count] is sent the
    count. *)
Lemma body_and_code_agree_witness :
  dispatch cfg str_error "/add" (bare OPTIONS) w0 = ((None, 200%Z), w0) /\
  dispatch cfg str_error "/count" (bare HEAD) w0
  = ((None, 200%Z), logged w0 [EvCount "images"]) /\
  dispatch cfg str_error "/add" (bare PUT) w0
  = ((Some (failure ["method not allowed"]), 405%Z), w0) /\
  let code := snd (fst (dispatch cfg str_error "/count" (bare GET) w0)) in
  fst (fst (dispatch cfg str_error "/count" (bare GET) w0))
  = Some (ok "count" [RCount 3]) /\
  (code = 200%Z <-> status (ok "count" [RCount 3]) = "ok").
Proof.
  split; [vm_compute; reflexivity|]. split; [vm_compute; reflexivity|].
  split; [vm_compute; reflexivity|]. cbv zeta.
  split; [vm_compute; reflexivity|].
  destruct (body_and_code_agree cfg str_error "/count" (bare GET) w0)
    as (_ & _ & _ & B).
  refine (proj1 (B (ok "count" [RCount 3]) _)). vm_compute; reflexivity.
Defined.

End FurtherExamples.

(** ** The score of a distance that is not a number *)

Section Scores.

Lemma shr_1_nonneg mrs : (0 <= shr_m mrs)%Z -> (0 <= shr_m (shr_1 mrs))%Z.
Proof.
  destruct mrs as [m r s]. destruct m as [|[p|p|]|[p|p|]]; simpl; lia.
Qed.

Lemma iter_pos_keeps {A} (P : A -> Prop) (f : A -> A) :
  (forall x, P x -> P (f x)) ->
  forall p x, P x -> P (SpecFloat.iter_pos f p x).
Proof.
  intros Step. induction p as [p IH|p IH|]; simpl; intros x Px; auto.
Qed.

Lemma shr_fexp_nonneg m e l :
  (0 <= m)%Z -> (0 <= shr_m (fst (shr_fexp prec emax m e l)))%Z.
Proof.
  intros M. unfold shr_fexp, shr.
  assert (R : (0 <= shr_m (shr_record_of_loc m l))%Z)
    by (by destruct l as [|[]]).
  destruct (_ - e)%Z as [|p|p]; simpl; [done| |done].
  by apply (iter_pos_keeps (fun mrs => (0 <= shr_m mrs)%Z) shr_1 shr_1_nonneg).
Qed.

Lemma round_nearest_even_nonneg m l :
  (0 <= m)%Z -> (0 <= round_nearest_even m l)%Z.
Proof.
  intros M. destruct l as [|[]]; simpl; try done; [|lia].
  destruct (Z.even m); lia.
Qed.

(** Rounding a mantissa that is not negative gives a zero, a finite
    number or an infinity. *)
Lemma binary_round_aux_not_nan sx mx ex lx :
  (0 <= mx)%Z -> binary_round_aux prec emax sx mx ex lx <> S754_nan.
Proof.
  intros M. unfold binary_round_aux.
  pose proof (shr_fexp_nonneg mx ex lx M) as M1.
  destruct (shr_fexp prec emax mx ex lx) as [mrs1 e1]. simpl in M1.
  pose proof (shr_fexp_nonneg
                (round_nearest_even (shr_m mrs1) (loc_of_shr_record mrs1))
                e1 loc_Exact (round_nearest_even_nonneg _ _ M1)) as M2.
  destruct (shr_fexp prec emax _ e1 loc_Exact) as [mrs2 e2]. simpl in M2.
  destruct (shr_m mrs2) as [|p|p]; [done| |lia].
  by destruct (e2 <=? emax - prec)%Z.
Qed.

Lemma binary_normalize_not_nan m e szero :
  binary_normalize prec emax m e szero <> S754_nan.
Proof.
  destruct m as [|p|p]; simpl; [done| |];
    unfold binary_round; destruct (shl_align _ _ _);
    by apply binary_round_aux_not_nan.
Qed.

Lemma fmul_finite_not_nan x sy my ey :
  x <> S754_nan -> fmul x (S754_finite sy my ey) <> S754_nan.
Proof.
  intros N. destruct x as [s|s| |s m e]; simpl; try done.
  by apply binary_round_aux_not_nan.
Qed.

(** X23: the score is not a number exactly when the distance is not a
    number.  [dist_to_percent] turns a NaN into a NaN, and every other
    distance, finite or infinite, zero or not, into a score that is a
    zero, a finite number or an infinity. *)
Theorem dist_to_percent_nan dist :
  dist_to_percent dist = S754_nan <-> dist = S754_nan.
Proof.
  unfold dist_to_percent.
  assert (One : float_of_Z 1 = S754_finite false 4503599627370496 (-52))
    by (vm_compute; reflexivity).
  assert (Hundred : float_of_Z 100 = S754_finite false 7036874417766400 (-46))
    by (vm_compute; reflexivity).
  rewrite One, Hundred. split; [|by intros ->].
  intros E. destruct dist as [s|s| |s m e]; [exfalso..|done|exfalso].
  - revert E. by apply fmul_finite_not_nan.
  - revert E. by apply fmul_finite_not_nan.
  - revert E. apply fmul_finite_not_nan.
    unfold fsub, SFsub. apply binary_normalize_not_nan.
Qed.

End Scores.
